(** * A shallow embedding of [project.py]

    The program is a Streamlit dashboard over a survey table: [load_data]
    reads a CSV file and extracts the sorted list of countries,
    [process_multiselect_column] tallies the [;]-separated tokens of one
    column, and the page functions show the fifteen most frequent tokens.

    The pandas, numpy and Streamlit calls of the source are modelled one
    definition per call, under the name the source uses, and composed the
    way the source composes them.  pandas is the pandas of the source's
    time: a column of strings has dtype [object], and [unique] returns a
    numpy array.  What Streamlit shows is a list of elements in the order
    of the calls; what [@st.cache_data] keeps between runs is explicit
    state.  The two decorated functions appear twice: the body under the
    source's name, the decorated function with the suffix [_cached]. *)

From Stdlib Require Import String Ascii ZArith List Sorted Permutation Lia.
From stdpp Require Import base option list sorting strings gmap pretty.

(** ** Values and tables *)

(** A non-missing cell of a table.  [SStr] is a Python [str] (its UTF-8
    bytes; bytewise order is code-point order), [SNum] stands for any
    numeric scalar.  A missing cell ([NaN], [None]) is the absence of the
    column's key in the row. *)
Inductive scalar :=
| SStr (s : string)
| SNum (z : Z).

#[global] Instance scalar_eq_dec : EqDecision scalar.
Proof. solve_decision. Defined.

Definition is_str (v : scalar) : bool :=
  match v with SStr _ => true | SNum _ => false end.

Definition is_num (v : scalar) : bool :=
  match v with SStr _ => false | SNum _ => true end.

(** A [pandas.DataFrame]: the column index and the rows in order.  A row
    maps a column name to its value; a name with no entry is missing. *)
Record DataFrame := mkDataFrame {
  columns : list string;
  rows : list (gmap string scalar)
}.

#[global] Instance DataFrame_eq_dec : EqDecision DataFrame.
Proof. solve_decision. Defined.

(** A [pandas.Series] of counts indexed by token, in index order
    (what [value_counts] returns; [pd.Series(dtype='int64')] is [[]]). *)
Abbreviation Series := (list (string * nat)).

(** ** Exceptions and results *)

Inductive exn :=
| FileNotFoundError
| AttributeError
| KeyError (key : string)
| TypeError
| OtherException (msg : string).

#[global] Instance exn_eq_dec : EqDecision exn.
Proof. solve_decision. Defined.

Inductive result (A : Type) :=
| Ok (a : A)
| Raise (e : exn).
Arguments Ok {A} a.
Arguments Raise {A} e.

(** ** What the program shows

    An f-string is kept as its fragments: the literal parts and the
    interpolated values, in order. *)
Inductive fragment :=
| Lit (s : string)
| FmtStr (s : string)
| FmtScalar (v : scalar)
| FmtThousands (n : nat)
| FmtExn (e : exn).

Definition text := list fragment.

(** The frame made by [counts.head(15).reset_index()] with its two column
    labels assigned. *)
Record CountFrame := mkCountFrame {
  cf_columns : string * string;
  cf_rows : list (string * nat)
}.

(** The figure made by [px.bar] and [update_layout]. *)
Record Figure := mkFigure {
  fig_data : CountFrame;
  fig_x : string;
  fig_y : string;
  fig_orientation : string;
  fig_title : text;
  fig_categoryorder : string
}.

Inductive st_event :=
| st_header (body : text)
| st_subheader (body : text)
| st_markdown (body : text)
| st_text (body : text)
| st_info (body : text)
| st_warning (body : text)
| st_error (body : text)
| st_dataframe_rows (data : DataFrame)
| st_dataframe (data : CountFrame) (use_container_width : bool)
| st_plotly_chart (fig : Figure) (use_container_width : bool)
| st_columns (spec : list nat)
| st_with_column (i : nat) (e : st_event)
| st_selectbox (label : text) (options : list string)
| st_sidebar_title (body : text)
| st_sidebar_radio (label : text) (options : list string)
| st_sidebar_markdown (body : text)
| st_sidebar_subheader (body : text)
| st_sidebar_selectbox (label : text) (options : list scalar).

(** ** The body monad: elements shown so far, and a value or an exception *)

Definition W (A : Type) : Type := list st_event * result A.

#[global] Instance W_ret : MRet W := λ A a, ([], Ok a).

#[global] Instance W_bind : MBind W := λ A B f m,
  match m with
  | (evs, Ok a) => let '(evs', r) := f a in (evs ++ evs', r)
  | (evs, Raise e) => (evs, Raise e)
  end.

Definition emit (e : st_event) : W unit := ([e], Ok tt).

Definition lift {A} (r : result A) : W A := ([], r).

(** ** Python and pandas operations *)

(** [s.split(';')]: the pieces between separators, none dropped and none
    trimmed; a string without separator is its own single piece. *)
Fixpoint py_split (sep : ascii) (s : string) : list string :=
  match s with
  | EmptyString => [EmptyString]
  | String c s' =>
      if Ascii.eqb c sep then EmptyString :: py_split sep s'
      else match py_split sep s' with
           | t :: ts => String c t :: ts
           | [] => [String c EmptyString]
           end
  end.

Arguments py_split sep%_char s.

(** [sep.join(l)] *)
Fixpoint py_join (sep : ascii) (l : list string) : string :=
  match l with
  | [] => EmptyString
  | [t] => t
  | t :: ts => t +:+ String sep (py_join sep ts)
  end.

Arguments py_join sep%_char l.

(** [df[column_name]]: the cells of one column, [None] where missing. *)
Definition getitem (df : DataFrame) (column_name : string) : list (option scalar) :=
  (λ r : gmap string scalar, r !! column_name) <$> rows df.

(** [df.dropna(subset=[column_name])] *)
Definition dropna (df : DataFrame) (column_name : string) : DataFrame :=
  {| columns := columns df;
     rows := filter (λ r : gmap string scalar, is_Some (r !! column_name)) (rows df) |}.

(** [df.empty]: some axis has length zero. *)
Definition empty (df : DataFrame) : bool :=
  bool_decide (rows df = [] ∨ columns df = []).

(** [series.dropna()] *)
Definition series_dropna (s : list (option scalar)) : list scalar := omap id s.

(** What [pandas.api.types.infer_dtype(values, skipna=True)] tells the
    [.str] accessor about the values: nothing non-missing, only strings,
    only numbers, or a mix. *)
Inductive inferred_dtype := inf_empty | inf_string | inf_numeric | inf_mixed.

Definition infer_dtype (s : list (option scalar)) : inferred_dtype :=
  match series_dropna s with
  | [] => inf_empty
  | xs => if forallb is_str xs then inf_string
          else if forallb is_num xs then inf_numeric
          else inf_mixed
  end.

(** [series.str]: the accessor is refused on values that are all numbers
    ("Can only use .str accessor with string values!"). *)
Definition str_accessor (s : list (option scalar)) : result (list (option scalar)) :=
  match infer_dtype s with
  | inf_numeric => Raise AttributeError
  | _ => Ok s
  end.

(** [series.str.split(sep)]: a string becomes the list of its pieces; a
    missing value or a non-string stays missing. *)
Definition split_cell (sep : ascii) (c : option scalar) : option (list string) :=
  match c with
  | Some (SStr s) => Some (py_split sep s)
  | _ => None
  end.

Definition str_split (sep : ascii) (s : list (option scalar))
  : result (list (option (list string))) :=
  match str_accessor s with
  | Ok s' => Ok (split_cell sep <$> s')
  | Raise e => Raise e
  end.
Arguments split_cell sep%_char c.
Arguments str_split sep%_char s.

(** [series.explode()]: one entry per list element, in order; a missing
    value stays one missing entry, and so does an empty list. *)
Definition explode_cell (c : option (list string)) : list (option string) :=
  match c with
  | Some [] => [None]
  | Some l => Some <$> l
  | None => [None]
  end.

Definition explode (s : list (option (list string))) : list (option string) :=
  s ≫= explode_cell.

(** The hash-table pass of [value_counts]: one entry per distinct key in
    order of first appearance, its counter incremented at every later
    occurrence. *)
Fixpoint tally_add (k : string) (acc : Series) : Series :=
  match acc with
  | [] => [(k, 1)]
  | (k', n) :: acc' =>
      if decide (k = k') then (k', S n) :: acc'
      else (k', n) :: tally_add k acc'
  end.

Definition value_count (keys : list string) : Series :=
  fold_left (λ acc k, tally_add k acc) keys [].

(** [Series.sort_values(ascending=False)] with the default
    [kind='quicksort'].  numpy's quicksort is not a stable sort, and which
    of several equal counts comes first is left to the numpy build; so the
    sort is an interface with exactly the contract pandas documents: the
    result is a rearrangement of the input, in descending order. *)
Class Sorter := {
  sort_values : Series → Series;
  sort_values_perm : ∀ s, sort_values s ≡ₚ s;
  sort_values_desc : ∀ s, StronglySorted (λ a b : string * nat, (snd b ≤ snd a)) (sort_values s)
}.

(** [Series.value_counts()]: missing entries dropped, the hash-table
    tally, then the descending sort. *)
Definition value_counts `{Sorter} (s : list (option string)) : Series :=
  sort_values (value_count (omap id s)).

(** [series.head(n)] *)
Definition head (n : nat) (s : Series) : Series := take n s.

(** [df.head()] *)
Definition df_head (df : DataFrame) : DataFrame :=
  {| columns := columns df; rows := take 5 (rows df) |}.

(** [series.unique()]: the distinct values in order of appearance, found
    by one pass that appends every value not seen before. *)
Definition unique_step (acc : list scalar) (x : scalar) : list scalar :=
  if decide (x ∈ acc) then acc else acc ++ [x].

Definition unique (l : list scalar) : list scalar := fold_left unique_step l [].

(** Python's [<=] between two cell values, where it is defined. *)
Definition py_le (a b : scalar) : bool :=
  match a, b with
  | SStr s, SStr t => String.leb s t
  | SNum x, SNum y => (x <=? y)%Z
  | _, _ => false
  end.

Fixpoint insert_asc (x : scalar) (l : list scalar) : list scalar :=
  match l with
  | [] => [x]
  | y :: l' => if py_le x y then x :: y :: l' else y :: insert_asc x l'
  end.

(** [ndarray.sort()]: ascending.  Sorting strings together with numbers
    compares a [str] with a number, which raises [TypeError]. *)
Definition ndarray_sort (l : list scalar) : result (list scalar) :=
  if forallb is_str l || forallb is_num l
  then Ok (foldr insert_asc [] l)
  else Raise TypeError.

(** [df[df['Country'] == selected_country]]: the rows whose Country cell
    equals the value; a missing cell equals nothing.  Indexing a frame
    that has no such column raises [KeyError]. *)
Definition country_mask (df : DataFrame) (selected_country : scalar) : result DataFrame :=
  if decide ("Country" ∈ columns df)
  then Ok {| columns := columns df;
             rows := filter (λ r : gmap string scalar, r !! "Country" = Some selected_country)
                            (rows df) |}
  else Raise (KeyError "Country").

(** A Python [dict] with string keys, in insertion order. *)
Fixpoint dict_get {V} (k : string) (d : list (string * V)) : option V :=
  match d with
  | [] => None
  | (k', v) :: d' => if decide (k' = k) then Some v else dict_get k d'
  end.

(** ** The two cached functions, as written *)

Definition process_multiselect_column `{Sorter}
    (df : DataFrame) (column_name : string) : W Series :=
  if decide (column_name ∈ columns df) then
    let df_processed := dropna df column_name in
    if empty df_processed then mret []
    else
      pieces ← lift (str_split ";" (getitem df_processed column_name));
      mret (value_counts (explode pieces))
  else
    emit (st_warning [FmtStr column_name; Lit " 컬럼이 데이터에 없습니다."]);;
    mret [].

(** The [try] block of [load_data]; [read_csv] is what [pd.read_csv] does
    on the file system at the time of the call. *)
Definition load_data_try (read_csv : string → result DataFrame) (filepath : string)
  : W (option DataFrame * list scalar) :=
  data ← lift (read_csv filepath);
  if decide ("Country" ∈ columns data) then
    countries ← lift (ndarray_sort (unique (series_dropna (getitem data "Country"))));
    mret (Some data, countries)
  else mret (Some data, []).

Definition load_data (read_csv : string → result DataFrame) (filepath : string)
  : W (option DataFrame * list scalar) :=
  match load_data_try read_csv filepath with
  | (evs, Ok r) => (evs, Ok r)
  | (evs, Raise FileNotFoundError) =>
      (evs ++ [st_error [Lit "파일이 존재하지 않습니다."]], Ok (None, []))
  | (evs, Raise e) =>
      (evs ++ [st_error [Lit "데이터 로드 중 오류 발생: "; FmtExn e]], Ok (None, []))
  end.

(** ** Streamlit's [st.cache_data]

    What persists from one run of the script to the next: for each cached
    function the stored results, keyed by the arguments, each with the
    elements the call showed. *)
Record caches := mkCaches {
  load_data_cache : list (string * (list st_event * (option DataFrame * list scalar)));
  process_cache : list (DataFrame * string * (list st_event * Series))
}.

(** The state of a run: the caches and the elements shown so far. *)
Record world := mkWorld {
  cached : caches;
  shown : list st_event
}.

Definition M (A : Type) : Type := world → result A * world.

#[global] Instance M_ret : MRet M := λ A a w, (Ok a, w).

#[global] Instance M_bind : MBind M := λ A B f m w,
  match m w with
  | (Ok a, w') => f a w'
  | (Raise e, w') => (Raise e, w')
  end.

Definition show (evs : list st_event) (w : world) : world :=
  {| cached := cached w; shown := shown w ++ evs |}.

Definition st (e : st_event) : M unit := λ w, (Ok tt, show [e] w).

Definition raise_if {A} (r : result A) : M A := λ w, (r, w).

Fixpoint cache_find {K V} `{EqDecision K} (k : K) (c : list (K * V)) : option V :=
  match c with
  | [] => None
  | (k', v) :: c' => if decide (k' = k) then Some v else cache_find k c'
  end.

(** A call of a function decorated with [@st.cache_data]: on a hit the
    stored value is returned and the stored elements are shown again,
    the body is not run; on a miss the body runs, and its value is stored
    unless it raised.  A stored result is found here by the arguments it
    was stored for, which is what a run of the script sees: the path of
    [load_data] is one string, and the frames a run hands to
    [process_multiselect_column] are cut from one loaded table by the
    country filter, so that two of them that differ differ in a Country
    cell.  [st.cache_data] itself finds a result by a hash of the
    arguments, under which other frames can meet: [st_key] and
    [process_multiselect_column_cached_by] below. *)
Definition cache_data {K V} `{EqDecision K}
    (get : caches → list (K * (list st_event * V)))
    (set : list (K * (list st_event * V)) → caches → caches)
    (body : K → W V) (k : K) : M V := λ w,
  match cache_find k (get (cached w)) with
  | Some (evs, v) => (Ok v, show evs w)
  | None =>
      match body k with
      | (evs, Ok v) =>
          (Ok v, {| cached := set ((k, (evs, v)) :: get (cached w)) (cached w);
                    shown := shown w ++ evs |})
      | (evs, Raise e) => (Raise e, show evs w)
      end
  end.

Definition set_load_data_cache c (cs : caches) : caches :=
  {| load_data_cache := c; process_cache := process_cache cs |}.

Definition set_process_cache c (cs : caches) : caches :=
  {| load_data_cache := load_data_cache cs; process_cache := c |}.

Definition load_data_cached (read_csv : string → result DataFrame) (filepath : string)
  : M (option DataFrame * list scalar) :=
  cache_data load_data_cache set_load_data_cache (load_data read_csv) filepath.

Definition process_multiselect_column_cached `{Sorter}
    (df : DataFrame) (column_name : string) : M Series :=
  cache_data process_cache set_process_cache
    (λ k, process_multiselect_column (fst k) (snd k)) (df, column_name).

(** ** The key of a stored result

    [st.cache_data] does not compare the arguments of a call with the
    arguments of the stored results: it looks a result up under a hash of
    the arguments.  For a frame the hash takes the shape, the dtype of
    every column and pandas' [hash_pandas_object] of the rows; of a frame
    of 100,000 rows and more only the rows of
    [df.sample(n=10000, random_state=0)] are hashed.  In a column of dtype
    [object] that holds more than strings pandas hashes the text
    [str(v)] of every value, so that the number [1] and the string ["1"]
    hash alike.  The hash of a text is taken for the text, the hash of a
    number for the number, and the rows carry the labels [0], [1], ... of
    a frame that was built or read as a whole. *)
Inductive dtype := dtype_object | dtype_number.

#[global] Instance dtype_eq_dec : EqDecision dtype.
Proof. solve_decision. Defined.




Record frame_key := mkFrameKey {
  key_shape : nat * nat;
  key_dtypes : list (string * dtype);
  key_rows : list (list (option scalar))
}.

#[global] Instance frame_key_eq_dec : EqDecision frame_key.
Proof. solve_decision. Defined.


(** The decorated [process_multiselect_column] with the stored results
    found by key: what a call returns, what it shows, and the store it
    leaves.  With the arguments themselves for key this is
    [process_multiselect_column_cached]. *)
Definition process_multiselect_column_cached_by `{Sorter} {K} `{EqDecision K}
    (key : DataFrame → K) (df : DataFrame) (column_name : string)
    (store : list (K * string * (list st_event * Series)))
  : result Series * list st_event * list (K * string * (list st_event * Series)) :=
  match cache_find (key df, column_name) store with
  | Some (evs, v) => (Ok v, evs, store)
  | None =>
      match process_multiselect_column df column_name with
      | (evs, Ok v) => (Ok v, evs, ((key df, column_name), (evs, v)) :: store)
      | (evs, Raise e) => (Raise e, evs, store)
      end
  end.

(** ** The pages *)

(** The value a selection widget returns: the option the user picked, the
    first option when nothing valid is picked. *)
Definition widget_value {A} (default : A) (options : list A) (choice : nat) : A :=
  nth choice options (hd default options).

(** What the user has selected in the three widgets. *)
Record selections := mkSelections {
  menu_choice : nat;
  country_choice : nat;
  topic_choice : nat
}.

Definition show_home (df_public : DataFrame) : M unit :=
  st (st_header [Lit "🏠 HOME"]);;
  st (st_markdown [Lit "### Stack Overflow 개발자 설문조사 데이터 분석기"]);;
  st (st_text [Lit "이 앱은 Streamlit을 사용하여 프로그래밍 언어 통계를 분석합니다."]);;
  st (st_text [Lit "로드된 원본 데이터는 총 "; FmtThousands (length (rows df_public));
               Lit " 명의 응답을 포함합니다."]);;
  st (st_subheader [Lit "데이터 원본 (일부)"]);;
  st (st_dataframe_rows (df_head df_public));;
  st (st_info [Lit "왼쪽 사이드바에서 메뉴를 선택하여 분석을 시작하세요."]).

(** The filter both analysis pages start with. *)
Definition filter_country (df : DataFrame) (selected_country : scalar) : result DataFrame :=
  if decide (selected_country = SStr "전체") then Ok df
  else country_mask df selected_country.

Definition show_language_usage `{Sorter}
    (df : DataFrame) (selected_country : scalar) : M unit :=
  st (st_header [Lit "🚀 언어 사용 현황"]);;
  st (st_markdown [Lit "**("; FmtScalar selected_country;
                   Lit ")** 응답자들이 가장 많이 사용한 언어입니다."]);;
  df_filtered ← raise_if (filter_country df selected_country);
  lang_counts ← process_multiselect_column_cached df_filtered "LanguageHaveWorkedWith";
  match lang_counts with
  | [] =>
      st (st_warning [Lit "선택된 국가("; FmtScalar selected_country;
                      Lit ")에 대한 데이터가 없습니다."])
  | _ =>
      let top_15_langs := mkCountFrame ("Language", "Count") (head 15 lang_counts) in
      st (st_columns [2; 1]);;
      st (st_with_column 0 (st_subheader [Lit "Top 15 언어 (그래프)"]));;
      let fig_bar :=
        {| fig_data := top_15_langs; fig_x := "Count"; fig_y := "Language";
           fig_orientation := "h";
           fig_title := [Lit "'"; FmtScalar selected_country;
                         Lit "'에서 가장 많이 사용된 언어 Top 15"];
           fig_categoryorder := "total ascending" |} in
      st (st_with_column 0 (st_plotly_chart fig_bar true));;
      st (st_with_column 1 (st_subheader [Lit "Top 15 언어 (테이블)"]));;
      st (st_with_column 1 (st_dataframe top_15_langs true))
  end.

Definition analysis_options : list (string * string) :=
  [ ("가장 많이 사용한 언어", "LanguageHaveWorkedWith");
    ("가장 배우고 싶은 언어", "LanguageWantToWorkWith");
    ("가장 많이 사용하는 데이터베이스", "DatabaseHaveWorkedWith");
    ("가장 배우고 싶은 데이터베이스", "DatabaseWantToWorkWith");
    ("가장 많이 사용한 플랫폼", "PlatformHaveWorkedWith");
    ("가장 배우고 싶은 플랫폼", "PlatformWantToWorkWith") ].

Definition show_detailed_analysis `{Sorter} (topic_choice : nat)
    (df : DataFrame) (selected_country : scalar) : M unit :=
  st (st_header [Lit "🔍 언어 심층 분석"]);;
  st (st_markdown [Lit "**("; FmtScalar selected_country;
                   Lit ")** 응답자들의 상세 언어 사용 분석입니다."]);;
  df_filtered ← raise_if (filter_country df selected_country);
  st (st_subheader [Lit "분석 항목 선택하기"]);;
  let options := fst <$> analysis_options in
  st (st_selectbox [Lit "분석하고 싶은 주제를 선택하세요:"] options);;
  let selected_option_label := widget_value "" options topic_choice in
  selected_column_name ←
    raise_if (match dict_get selected_option_label analysis_options with
              | Some c => Ok c
              | None => Raise (KeyError selected_option_label)
              end);
  result_counts ← process_multiselect_column_cached df_filtered selected_column_name;
  match result_counts with
  | [] =>
      st (st_warning [Lit "선택된 국가("; FmtScalar selected_country; Lit ")에 대한 ";
                      FmtStr selected_option_label; Lit " 데이터가 없습니다."])
  | _ =>
      st (st_subheader [Lit "'"; FmtStr selected_option_label; Lit "' 분석 결과 (Top 15)"]);;
      let top_15_results := mkCountFrame ("Item", "Count") (head 15 result_counts) in
      let fig_px :=
        {| fig_data := top_15_results; fig_x := "Count"; fig_y := "Item";
           fig_orientation := "h";
           fig_title := [Lit "'"; FmtScalar selected_country; Lit "'의 '";
                         FmtStr selected_option_label; Lit "' Top 15"];
           fig_categoryorder := "total ascending" |} in
      st (st_plotly_chart fig_px true);;
      st (st_dataframe top_15_results false)
  end.

(** ** One run of the script *)

Definition menu_options : list string :=
  ["🏠 Home"; "🚀 언어 사용 현황"; "🔍 언어 심층 분석"].

Definition main `{Sorter}
    (read_csv : string → result DataFrame) (ui : selections) : M unit :=
  '(df_public, countries) ← load_data_cached read_csv "./survey_results_small.csv";
  match df_public with
  | Some df_public =>
      st (st_sidebar_title [Lit "메뉴"]);;
      st (st_sidebar_radio [Lit "메뉴를 선택하세요"] menu_options);;
      let selected_menu := widget_value "" menu_options (menu_choice ui) in
      st (st_sidebar_markdown [Lit "---"]);;
      st (st_sidebar_subheader [Lit "🌍 국가 필터"]);;
      let country_options := SStr "전체" :: countries in
      st (st_sidebar_selectbox [Lit "국가를 선택하세요"] country_options);;
      let selected_country := widget_value (SStr "전체") country_options (country_choice ui) in
      if decide (selected_menu = "🏠 Home") then show_home df_public
      else if decide (selected_menu = "🚀 언어 사용 현황")
           then show_language_usage df_public selected_country
      else if decide (selected_menu = "🔍 언어 심층 분석")
           then show_detailed_analysis (topic_choice ui) df_public selected_country
      else mret tt
  | None =>
      st (st_error [Lit "데이터 로딩에 실패하여 앱을 실행할 수 없습니다."])
  end.

(** The state a run starts in: the caches left by the earlier runs and
    nothing shown yet. *)
Definition start (c : caches) : world := {| cached := c; shown := [] |}.

Definition no_caches : caches := {| load_data_cache := []; process_cache := [] |}.

(** * The vocabulary of the properties *)

(** A sorter is stable when entries of equal count keep their relative
    order. *)
Definition Stable (S : Sorter) : Prop :=
  ∀ (s : Series) (c : nat),
    filter (λ p : string * nat, snd p = c) (sort_values s) = filter (λ p : string * nat, snd p = c) s.

Fixpoint count_sep (sep : ascii) (s : string) : nat :=
  match s with
  | EmptyString => 0
  | String c s' => (if Ascii.eqb c sep then 1 else 0) + count_sep sep s'
  end.

Fixpoint sep_free (sep : ascii) (s : string) : Prop :=
  match s with
  | EmptyString => True
  | String c s' => c ≠ sep ∧ sep_free sep s'
  end.

(** The distinct elements of a sequence in order of first appearance. *)
Fixpoint first_seen (l : list string) : list string :=
  match l with
  | [] => []
  | x :: l' => x :: filter (λ y, y ≠ x) (first_seen l')
  end.

Fixpoint occurrences (k : string) (l : list string) : nat :=
  match l with
  | [] => 0
  | x :: l' => (if decide (x = k) then 1 else 0) + occurrences k l'
  end.

(** The tally in the words of the specification: every distinct token
    once, in first-seen order, with its number of occurrences. *)
Definition tally_spec (l : list string) : Series :=
  (λ k, (k, occurrences k l)) <$> first_seen l.

(** The values the column holds, in row order. *)
Definition column_values (df : DataFrame) (column_name : string) : list scalar :=
  omap (λ r : gmap string scalar, r !! column_name) (rows df).

(** The tokens of the column: the pieces of every string cell, row after
    row. *)
Definition column_tokens (df : DataFrame) (column_name : string) : list string :=
  rows df ≫= (λ r : gmap string scalar,
    match r !! column_name with
    | Some (SStr s) => py_split ";" s
    | _ => []
    end).

(** The strings the column holds, in row order. *)
Definition string_cells (df : DataFrame) (column_name : string) : list string :=
  rows df ≫= (λ r : gmap string scalar,
    match r !! column_name with
    | Some (SStr s) => [s]
    | _ => []
    end).

(** The column holds a value, and every value it holds is a number. *)
Definition numeric_only (df : DataFrame) (column_name : string) : Prop :=
  column_values df column_name ≠ [] ∧ Forall is_num (column_values df column_name).

#[global] Instance numeric_only_dec df column_name : Decision (numeric_only df column_name).
Proof. unfold numeric_only. apply _. Defined.

(** Python's [<] between two cell values of the same kind. *)
Definition py_lt (a b : scalar) : Prop :=
  match a, b with
  | SStr s, SStr t => String.ltb s t
  | SNum x, SNum y => (x < y)%Z
  | _, _ => False
  end.

(** The sorted list of the distinct values of the Country column. *)
Definition is_country_set (df : DataFrame) (countries : list scalar) : Prop :=
  StronglySorted py_lt countries ∧
  ∀ v, v ∈ countries ↔ v ∈ column_values df "Country".

(** What the usage page shows below its heading for a given tally. *)
Definition language_usage_view (selected_country : scalar) (lang_counts : Series)
  : list st_event :=
  match lang_counts with
  | [] =>
      [st_warning [Lit "선택된 국가("; FmtScalar selected_country;
                   Lit ")에 대한 데이터가 없습니다."]]
  | _ =>
      let top := mkCountFrame ("Language", "Count") (take 15 lang_counts) in
      [st_columns [2; 1];
       st_with_column 0 (st_subheader [Lit "Top 15 언어 (그래프)"]);
       st_with_column 0 (st_plotly_chart
         {| fig_data := top; fig_x := "Count"; fig_y := "Language";
            fig_orientation := "h";
            fig_title := [Lit "'"; FmtScalar selected_country;
                          Lit "'에서 가장 많이 사용된 언어 Top 15"];
            fig_categoryorder := "total ascending" |} true);
       st_with_column 1 (st_subheader [Lit "Top 15 언어 (테이블)"]);
       st_with_column 1 (st_dataframe top true)]
  end.

(** What the detail page shows below its selection box for a given tally. *)
Definition detailed_analysis_view (selected_country : scalar)
    (selected_option_label : string) (result_counts : Series) : list st_event :=
  match result_counts with
  | [] =>
      [st_warning [Lit "선택된 국가("; FmtScalar selected_country; Lit ")에 대한 ";
                   FmtStr selected_option_label; Lit " 데이터가 없습니다."]]
  | _ =>
      let top := mkCountFrame ("Item", "Count") (take 15 result_counts) in
      [st_subheader [Lit "'"; FmtStr selected_option_label; Lit "' 분석 결과 (Top 15)"];
       st_plotly_chart
         {| fig_data := top; fig_x := "Count"; fig_y := "Item";
            fig_orientation := "h";
            fig_title := [Lit "'"; FmtScalar selected_country; Lit "'의 '";
                          FmtStr selected_option_label; Lit "' Top 15"];
            fig_categoryorder := "total ascending" |} true;
       st_dataframe top false]
  end.

(** ** Stored results *)

Section CacheInvariant.
Context `{Sorter}.

(** Every stored result of [process_multiselect_column] is what the body
    returns and shows on the stored arguments. *)
Definition process_cache_ok (c : caches) : Prop :=
  ∀ df column_name evs v,
    cache_find (df, column_name) (process_cache c) = Some (evs, v) →
    process_multiselect_column df column_name = (evs, Ok v).

(** Every stored result of [load_data] is what the body returned on the
    file system of some earlier call. *)
Definition load_data_cache_ok (c : caches) : Prop :=
  ∀ filepath evs r,
    cache_find filepath (load_data_cache c) = Some (evs, r) →
    ∃ read_csv, load_data read_csv filepath = (evs, Ok r).

Definition caches_ok (c : caches) : Prop :=
  process_cache_ok c ∧ load_data_cache_ok c.

(** A computation that leaves the stored results the body's. *)
Definition keeps_caches_ok {A} (m : M A) : Prop :=
  ∀ w, caches_ok (cached w) → caches_ok (cached (snd (m w))).

(** The caches that runs of the script reach from empty caches. *)
Inductive reachable : caches → Prop :=
| reachable_start : reachable no_caches
| reachable_run c read_csv ui :
    reachable c → reachable (cached (snd (main read_csv ui (start c)))).

(** The caches that any number of further runs reach from [c]. *)
Inductive later_caches (c : caches) : caches → Prop :=
| later_now : later_caches c c
| later_run c' read_csv ui :
    later_caches c c' → later_caches c (cached (snd (main read_csv ui (start c')))).

End CacheInvariant.

(** ** Stored results from one run to the next *)

(** Every result stored in [c] is stored in [c'], under the same arguments
    and unchanged. *)
Definition caches_extend (c c' : caches) : Prop :=
  (∀ filepath v,
     cache_find filepath (load_data_cache c) = Some v →
     cache_find filepath (load_data_cache c') = Some v) ∧
  (∀ k v,
     cache_find k (process_cache c) = Some v →
     cache_find k (process_cache c') = Some v).

(** A computation that drops no stored result and replaces none. *)
Definition keeps_stored {A} (m : M A) : Prop :=
  ∀ w, caches_extend (cached w) (cached (snd (m w))).

(** A computation that ends the same way and shows the same elements from
    any two states whose stored results are the body's. *)
Definition same_from_any_caches `{Sorter} {A} (m : M A) : Prop :=
  ∀ wa wb, caches_ok (cached wa) → caches_ok (cached wb) →
    fst (m wa) = fst (m wb) ∧
    ∃ evs, shown (snd (m wa)) = shown wa ++ evs ∧
           shown (snd (m wb)) = shown wb ++ evs.

(** ** Two sorters

    A stable instance of the interface, and the sort of numpy's generic
    build, which is not stable; the lemmas next to them are the two
    halves of the contract. *)

(** A stable instance: insertion from the right, a new entry going before
    the first entry whose count is not larger. *)
Fixpoint insert_desc (x : string * nat) (l : Series) : Series :=
  match l with
  | [] => [x]
  | y :: l' => if decide (snd y ≤ snd x) then x :: y :: l' else y :: insert_desc x l'
  end.

Fixpoint stable_sort_desc (l : Series) : Series :=
  match l with
  | [] => []
  | x :: l' => insert_desc x (stable_sort_desc l')
  end.

Lemma insert_desc_perm x l : insert_desc x l ≡ₚ x :: l.
Proof.
  induction l as [|y l IH]; simpl; [done|].
  case_decide; [done|]. rewrite IH. apply Permutation_swap.
Qed.

Lemma stable_sort_desc_perm l : stable_sort_desc l ≡ₚ l.
Proof.
  induction l as [|x l IH]; simpl; [done|].
  by rewrite insert_desc_perm, IH.
Qed.

Lemma insert_desc_sorted x l :
  StronglySorted (λ a b : string * nat, (snd b ≤ snd a)) l →
  StronglySorted (λ a b : string * nat, (snd b ≤ snd a)) (insert_desc x l).
Proof.
  induction 1 as [|y l Hs IH Hy]; simpl.
  - repeat constructor.
  - case_decide as Hle.
    + constructor; [by constructor|].
      constructor; [done|].
      eapply Forall_impl; [exact Hy|]. simpl. intros; lia.
    + constructor; [done|].
      rewrite insert_desc_perm. constructor; [simpl; lia|done].
Qed.

Lemma stable_sort_desc_sorted l :
  StronglySorted (λ a b : string * nat, (snd b ≤ snd a)) (stable_sort_desc l).
Proof.
  induction l; simpl; [constructor|by apply insert_desc_sorted].
Qed.

Definition stable_sorter : Sorter :=
  {| sort_values := stable_sort_desc;
     sort_values_perm := stable_sort_desc_perm;
     sort_values_desc := stable_sort_desc_sorted |}.

(** *** numpy's quicksort

    [sort_values(ascending=False)] leaves the sorting to pandas'
    [nargsort]: it reverses the values, asks numpy for
    [argsort(kind='quicksort')] and reverses the answer.  numpy's generic
    quicksort ([aquicksort] of [npysort/quicksort.cpp]) sorts an array
    [a] of positions by the keys [v] they point to.  It is an introsort: a
    range of more than seventeen positions is partitioned around the
    median of its first, middle and last key, the larger part is pushed on
    a stack and the smaller one partitioned on; a range of at most
    seventeen is sorted by insertion.  A range whose partitions went
    deeper than twice the binary logarithm of the length is handed to a
    heapsort, which is not modelled: the model has no answer there.
    (A numpy build that dispatches the sort to vector instructions may
    order equal keys in yet another way.)  The loops of the C code run on fuel,
    the length of the array, which they never use up. *)
Section Argsort.
Variable v : list nat.

(** [v[a[p]]] *)
Definition key_at (a : list nat) (p : nat) : nat := v !!! (a !!! p).

(** [INTP_SWAP(a[p], a[q])] *)
Definition intp_swap (a : list nat) (p q : nat) : list nat :=
  <[q := a !!! p]> (<[p := a !!! q]> a).

Definition median_of_three (a : list nat) (pl pm pr : nat) : list nat :=
  let a := if key_at a pm <? key_at a pl then intp_swap a pm pl else a in
  let a := if key_at a pr <? key_at a pm then intp_swap a pr pm else a in
  if key_at a pm <? key_at a pl then intp_swap a pm pl else a.

(** [do ++pi; while (v[a[pi]] < vp);] *)
Fixpoint scan_up (fuel : nat) (a : list nat) (vp pi : nat) : nat :=
  match fuel with
  | 0 => pi
  | S fuel => if key_at a (S pi) <? vp then scan_up fuel a vp (S pi) else S pi
  end.

(** [do --pj; while (vp < v[a[pj]]);] *)
Fixpoint scan_down (fuel : nat) (a : list nat) (vp pj : nat) : nat :=
  match fuel with
  | 0 => pj
  | S fuel => if vp <? key_at a (pred pj) then scan_down fuel a vp (pred pj) else pred pj
  end.

Fixpoint partition_loop (fuel : nat) (a : list nat) (vp pi pj : nat) : list nat * nat :=
  match fuel with
  | 0 => (a, pi)
  | S fuel =>
      let pi := scan_up (length a) a vp pi in
      let pj := scan_down (length a) a vp pj in
      if decide (pj ≤ pi) then (a, pi)
      else partition_loop fuel (intp_swap a pi pj) vp pi pj
  end.

(** One partition of the range from [pl] to [pr]: the array after it and
    the position of the pivot. *)
Definition partition (a : list nat) (pl pr : nat) : list nat * nat :=
  let pm := pl + (pr - pl) / 2 in
  let a := median_of_three a pl pm pr in
  let vp := key_at a pm in
  let a := intp_swap a pm (pr - 1) in
  let '(a, pi) := partition_loop (length a) a vp pl (pr - 1) in
  (intp_swap a pi (pr - 1), pi).

(** [while (pj > pl && vp < v[a[pj - 1]]) { a[pj] = a[pj - 1]; --pj; }] *)
Fixpoint shift (fuel : nat) (a : list nat) (vp pl pj : nat) : list nat * nat :=
  match fuel with
  | 0 => (a, pj)
  | S fuel =>
      if decide (pl < pj) then
        if vp <? key_at a (pj - 1)
        then shift fuel (<[pj := a !!! (pj - 1)]> a) vp pl (pj - 1)
        else (a, pj)
      else (a, pj)
  end.

Definition insert_at (a : list nat) (pl pi : nat) : list nat :=
  let vi := a !!! pi in
  let '(a, pj) := shift (length a) a (v !!! vi) pl pi in
  <[pj := vi]> a.

(** [for (pi = pl + 1; pi <= pr; ++pi)] *)
Definition insertion_sort (a : list nat) (pl pr : nat) : list nat :=
  fold_left (λ a pi, insert_at a pl pi) (seq (S pl) (pr - pl)) a.

(** [while ((pr - pl) > SMALL_QUICKSORT)], with the stack of the ranges
    put aside and the depth each of them was pushed at. *)
Fixpoint partition_while (fuel : nat) (a : list nat) (pl pr : nat) (cdepth : Z)
    (stack : list (nat * nat * Z)) : list nat * nat * nat * list (nat * nat * Z) :=
  match fuel with
  | 0 => (a, pl, pr, stack)
  | S fuel =>
      if decide (16 < pr - pl) then
        let '(a, pi) := partition a pl pr in
        let cdepth := (cdepth - 1)%Z in
        if decide (pi - pl < pr - pi)
        then partition_while fuel a pl (pi - 1) cdepth ((pi + 1, pr, cdepth) :: stack)
        else partition_while fuel a (pi + 1) pr cdepth ((pl, pi - 1, cdepth) :: stack)
      else (a, pl, pr, stack)
  end.

Fixpoint aquicksort_loop (fuel : nat) (a : list nat) (pl pr : nat) (cdepth : Z)
    (stack : list (nat * nat * Z)) : option (list nat) :=
  match fuel with
  | 0 => None
  | S fuel =>
      if decide (cdepth < 0)%Z then None
      else
        let '(a, pl, pr, stack) := partition_while (length a) a pl pr cdepth stack in
        let a := insertion_sort a pl pr in
        match stack with
        | [] => Some a
        | (pl, pr, cdepth) :: stack => aquicksort_loop fuel a pl pr cdepth stack
        end
  end.

(** [argsort(kind='quicksort')] of the [num] keys [v]. *)
Definition aquicksort (num : nat) : option (list nat) :=
  aquicksort_loop (S num) (seq 0 num) 0 (num - 1) (2 * Z.of_nat (Nat.log2 num)) [].

End Argsort.

(** pandas' [nargsort(values, kind='quicksort', ascending=False)] *)
Definition nargsort_descending (values : list nat) : option (list nat) :=
  let n := length values in
  idx ← aquicksort (reverse values) n;
  Some (reverse ((λ p, n - 1 - p) <$> idx)).

(** The series taken at the positions [nargsort] answers.  The instance
    checks that answer, a descending rearrangement, so that it keeps the
    contract without a proof of numpy's algorithm; where the check fails
    or the model has no answer it sorts by insertion. *)
Definition numpy_sort_values (s : Series) : Series :=
  match nargsort_descending (snd <$> s) with
  | Some indexer =>
      let r := omap (λ i, s !! i) indexer in
      if decide (r ≡ₚ s ∧ StronglySorted (λ a b : string * nat, snd b ≤ snd a) r)
      then r else stable_sort_desc s
  | None => stable_sort_desc s
  end.

Lemma numpy_sort_values_perm s : numpy_sort_values s ≡ₚ s.
Proof.
  unfold numpy_sort_values.
  destruct (nargsort_descending _) as [indexer|]; [|apply stable_sort_desc_perm].
  cbv zeta. case_decide as Hr; [apply Hr|apply stable_sort_desc_perm].
Qed.

Lemma numpy_sort_values_sorted s :
  StronglySorted (λ a b : string * nat, snd b ≤ snd a) (numpy_sort_values s).
Proof.
  unfold numpy_sort_values.
  destruct (nargsort_descending _) as [indexer|]; [|apply stable_sort_desc_sorted].
  cbv zeta. case_decide as Hr; [apply Hr|apply stable_sort_desc_sorted].
Qed.

Definition numpy_sorter : Sorter :=
  {| sort_values := numpy_sort_values;
     sort_values_perm := numpy_sort_values_perm;
     sort_values_desc := numpy_sort_values_sorted |}.

(** ** Tables and file systems of the examples *)

(** The table of the specification's first example. *)
Definition languages_table : DataFrame :=
  {| columns := ["LanguageHaveWorkedWith"];
     rows := [ {[ "LanguageHaveWorkedWith" := SStr "Python;Go" ]};
               {[ "LanguageHaveWorkedWith" := SStr "Go" ]};
               ∅ ] |}.

(** A table with a column of numbers. *)
Definition work_experience_table : DataFrame :=
  {| columns := ["WorkExp"];
     rows := [ {[ "WorkExp" := SNum 3 ]}; {[ "WorkExp" := SNum 10 ]} ] |}.

(** A table whose three tokens all occur twice. *)
Definition ties_table : DataFrame :=
  {| columns := ["Lang"];
     rows := [ {[ "Lang" := SStr "b;a" ]}; {[ "Lang" := SStr "a;b;c;c" ]} ] |}.


(** A table with one cell, in which two separators follow each other. *)
Definition double_separator_table : DataFrame :=
  {| columns := ["Lang"]; rows := [ {[ "Lang" := SStr "Go;;Rust" ]} ] |}.

(** The table of the specification's second example, with the column name
    the usage page reads. *)
Definition survey_table : DataFrame :=
  {| columns := ["Country"; "LanguageHaveWorkedWith"];
     rows := [ {[ "Country" := SStr "KR"; "LanguageHaveWorkedWith" := SStr "Go" ]};
               {[ "Country" := SStr "US"; "LanguageHaveWorkedWith" := SStr "Go;Rust" ]} ] |}.

(** The file system while the survey file is there, and after it has been
    removed. *)
Definition file_present : string → result DataFrame := λ _, Ok survey_table.
Definition file_removed : string → result DataFrame := λ _, Raise FileNotFoundError.

(** The caches a run leaves that loaded the file. *)
Definition caches_after_load : caches :=
  cached (snd (load_data_cached file_present "./survey_results_small.csv"
                 (start no_caches))).

(** A table whose Country column repeats a value and misses one. *)
Definition countries_table : DataFrame :=
  {| columns := ["Country"];
     rows := [ {[ "Country" := SStr "US" ]}; {[ "Country" := SStr "KR" ]};
               ∅; {[ "Country" := SStr "US" ]} ] |}.

(** The table of the specification's second example. *)
Definition country_lang_table : DataFrame :=
  {| columns := ["Country"; "Lang"];
     rows := [ {[ "Country" := SStr "KR"; "Lang" := SStr "Go" ]};
               {[ "Country" := SStr "US"; "Lang" := SStr "Go;Rust" ]} ] |}.

Definition country_lang_table_KR : DataFrame :=
  {| columns := ["Country"; "Lang"];
     rows := [ {[ "Country" := SStr "KR"; "Lang" := SStr "Go" ]} ] |}.

(** A tally of twenty tokens. *)
Definition twenty_counts : Series :=
  [
   ("L01", 20); ("L02", 19); ("L03", 18); ("L04", 17); ("L05", 16);
   ("L06", 15); ("L07", 14); ("L08", 13); ("L09", 12); ("L10", 11);
   ("L11", 10); ("L12", 9); ("L13", 8); ("L14", 7); ("L15", 6);
   ("L16", 5); ("L17", 4); ("L18", 3); ("L19", 2); ("L20", 1) ].

(** A table whose Country column holds a string next to a number. *)
Definition mixed_countries_table : DataFrame :=
  {| columns := ["Country"];
     rows := [ {[ "Country" := SStr "KR" ]}; {[ "Country" := SNum 82 ]} ] |}.

(** A table in which the column the usage page reads holds numbers. *)
Definition numeric_topic_table : DataFrame :=
  {| columns := ["LanguageHaveWorkedWith"];
     rows := [ {[ "LanguageHaveWorkedWith" := SNum 1 ]} ] |}.

(** The values of [countries_table] in another order, once each. *)
Definition countries_table_reordered : DataFrame :=
  {| columns := ["Country"];
     rows := [ {[ "Country" := SStr "KR" ]}; {[ "Country" := SStr "US" ]} ] |}.

(** The rows of [survey_table] in the other order. *)
Definition survey_table_reversed : DataFrame :=
  {| columns := ["Country"; "LanguageHaveWorkedWith"];
     rows := [ {[ "Country" := SStr "US"; "LanguageHaveWorkedWith" := SStr "Go;Rust" ]};
               {[ "Country" := SStr "KR"; "LanguageHaveWorkedWith" := SStr "Go" ]} ] |}.

(** The language answers of [survey_table], and no other column. *)
Definition answers_table : DataFrame :=
  {| columns := ["LanguageHaveWorkedWith"];
     rows := [ {[ "LanguageHaveWorkedWith" := SStr "Go" ]};
               {[ "LanguageHaveWorkedWith" := SStr "Go;Rust" ]} ] |}.

(** A table in which a number stands among the answers. *)
Definition number_among_answers_table : DataFrame :=
  {| columns := ["Lang"];
     rows := [ {[ "Lang" := SStr "Go;Rust" ]}; {[ "Lang" := SNum 3 ]};
               {[ "Lang" := SStr "Go" ]} ] |}.

(** The file system when the survey file is there but may not be read:
    [pd.read_csv] raises [PermissionError], which is not a
    [FileNotFoundError]. *)
Definition file_unreadable : string → result DataFrame :=
  λ _, Raise (OtherException
                "[Errno 13] Permission denied: './survey_results_small.csv'").

(** The table of the specification's second example with a country whose
    name is the text of the sentinel. *)
Definition sentinel_country_table : DataFrame :=
  {| columns := ["Country"; "LanguageHaveWorkedWith"];
     rows := [ {[ "Country" := SStr "전체"; "LanguageHaveWorkedWith" := SStr "Go" ]};
               {[ "Country" := SStr "US"; "LanguageHaveWorkedWith" := SStr "Go;Rust" ]} ] |}.

(** Three hundred languages, and a table in which each is answered once. *)
Definition many_languages : list string := (λ i : nat, "L" +:+ pretty i) <$> seq 0 300.

Definition many_languages_table : DataFrame :=
  {| columns := ["Lang"];
     rows := (λ t : string, {[ "Lang" := SStr t ]}) <$> many_languages |}.



(** * Lemmas *)

(** ** Splitting *)

Lemma py_split_not_nil sep s : py_split sep s ≠ [].
Proof.
  destruct s as [|c s]; simpl; [done|].
  destruct (Ascii.eqb c sep); [done|].
  by destruct (py_split sep s).
Qed.

Lemma py_join_cons sep t u us :
  py_join sep (t :: u :: us) = t +:+ String sep (py_join sep (u :: us)).
Proof. reflexivity. Qed.

Lemma py_join_split sep s : py_join sep (py_split sep s) = s.
Proof.
  induction s as [|c s IH]; simpl; [done|].
  destruct (Ascii.eqb_spec c sep) as [->|Hne].
  - pose proof (py_split_not_nil sep s) as Hnil.
    destruct (py_split sep s) as [|t ts]; [done|].
    rewrite py_join_cons. simpl. by rewrite <- IH.
  - pose proof (py_split_not_nil sep s) as Hnil.
    destruct (py_split sep s) as [|t ts]; [done|].
    destruct ts as [|u us]; simpl in *; by rewrite <- IH.
Qed.

Lemma py_split_length sep s : length (py_split sep s) = S (count_sep sep s).
Proof.
  induction s as [|c s IH]; simpl; [done|].
  destruct (Ascii.eqb c sep); simpl.
  - by rewrite IH.
  - pose proof (py_split_not_nil sep s) as Hnil.
    destruct (py_split sep s) as [|t ts]; [done|]. by rewrite <- IH.
Qed.

Lemma py_split_sep_free sep s : Forall (sep_free sep) (py_split sep s).
Proof.
  induction s as [|c s IH]; simpl; [by repeat constructor|].
  destruct (Ascii.eqb_spec c sep) as [->|Hne].
  - by constructor.
  - destruct (py_split sep s) as [|t ts]; [by repeat constructor|].
    inversion_clear IH. by constructor.
Qed.

Lemma py_split_sep_free_id sep t : sep_free sep t → py_split sep t = [t].
Proof.
  induction t as [|c t IH]; simpl; [done|]. intros [Hne Hfree].
  destruct (Ascii.eqb_spec c sep); [done|]. by rewrite IH.
Qed.

Lemma py_split_app sep t s :
  sep_free sep t → py_split sep (t +:+ String sep s) = t :: py_split sep s.
Proof.
  induction t as [|c t IH]; simpl.
  - intros _. by rewrite Ascii.eqb_refl.
  - intros [Hne Hfree]. destruct (Ascii.eqb_spec c sep); [done|]. by rewrite IH.
Qed.

Lemma py_split_join sep l :
  l ≠ [] → Forall (sep_free sep) l → py_split sep (py_join sep l) = l.
Proof.
  induction l as [|t [|u us] IH]; intros Hnil Hfree; [done| |].
  - inversion_clear Hfree. by apply py_split_sep_free_id.
  - inversion_clear Hfree. rewrite py_join_cons, py_split_app by done.
    f_equal. by apply IH.
Qed.

(** ** The tally *)

Lemma occurrences_app k l1 l2 :
  occurrences k (l1 ++ l2) = occurrences k l1 + occurrences k l2.
Proof. induction l1 as [|x l1 IH]; simpl; [done|]. rewrite IH. lia. Qed.

Lemma occurrences_0 k l : k ∉ l → occurrences k l = 0.
Proof.
  induction l as [|x l IH]; simpl; [done|].
  rewrite not_elem_of_cons. intros [Hne Hnin].
  rewrite IH by done. by case_decide.
Qed.

Lemma occurrences_pos k l : k ∈ l → 1 ≤ occurrences k l.
Proof.
  induction l as [|x l IH]; simpl; [by rewrite elem_of_nil|].
  rewrite elem_of_cons. intros [->|Hin].
  - rewrite decide_True by done. lia.
  - specialize (IH Hin). lia.
Qed.

Lemma first_seen_elem_of k l : k ∈ first_seen l ↔ k ∈ l.
Proof.
  induction l as [|x l IH]; simpl; [done|].
  rewrite !elem_of_cons, list_elem_of_filter, IH.
  destruct (decide (k = x)); tauto.
Qed.

Lemma first_seen_NoDup l : NoDup (first_seen l).
Proof.
  induction l as [|x l IH]; simpl; [constructor|].
  apply NoDup_cons. split.
  - rewrite list_elem_of_filter. tauto.
  - by apply NoDup_filter.
Qed.

Lemma first_seen_snoc l x :
  first_seen (l ++ [x]) = if decide (x ∈ l) then first_seen l else first_seen l ++ [x].
Proof.
  induction l as [|a l IH]; [done|].
  cbn [first_seen app]. rewrite IH. destruct (decide (x = a)) as [->|Hne].
  - rewrite (decide_True (P := a ∈ a :: l)) by (apply elem_of_cons; by left).
    destruct (decide (a ∈ l)); [done|].
    rewrite filter_app, filter_cons_False, filter_nil, app_nil_r; [done|tauto].
  - destruct (decide (x ∈ l)) as [Hin|Hnin].
    + rewrite decide_True; [done|]. apply elem_of_cons. by right.
    + rewrite decide_False by (rewrite elem_of_cons; tauto).
      by rewrite filter_app, filter_cons_True.
Qed.

Lemma tally_add_fresh k (f : string → nat) ks :
  k ∉ ks →
  tally_add k ((λ k', (k', f k')) <$> ks) = ((λ k', (k', f k')) <$> ks) ++ [(k, 1)].
Proof.
  induction ks as [|a ks IH]; csimpl; [done|].
  rewrite not_elem_of_cons. intros [Hne Hnin].
  rewrite decide_False by done. by rewrite IH.
Qed.

Lemma tally_add_seen k (f : string → nat) ks :
  k ∈ ks → NoDup ks →
  tally_add k ((λ k', (k', f k')) <$> ks)
  = (λ k', (k', if decide (k' = k) then S (f k') else f k')) <$> ks.
Proof.
  induction ks as [|a ks IH]; csimpl; [by rewrite elem_of_nil|].
  rewrite elem_of_cons, NoDup_cons. intros Hin [Hnin Hnd].
  destruct (decide (k = a)) as [->|Hne].
  - rewrite !decide_True by done. f_equal.
    apply list_fmap_ext. intros i k' Hk'. apply list_elem_of_lookup_2 in Hk'.
    rewrite decide_False; [done|]. by intros ->.
  - rewrite !decide_False by done. f_equal.
    apply IH; [tauto|done].
Qed.

Lemma value_count_snoc l x : value_count (l ++ [x]) = tally_add x (value_count l).
Proof. unfold value_count. by rewrite fold_left_app. Qed.

(** The hash-table pass computes the tally of the specification. *)
Lemma value_count_tally l : value_count l = tally_spec l.
Proof.
  induction l as [|x l IH] using rev_ind; [done|].
  rewrite value_count_snoc, IH. unfold tally_spec.
  rewrite first_seen_snoc. destruct (decide (x ∈ l)) as [Hin|Hnin].
  - rewrite tally_add_seen by (by rewrite ?first_seen_elem_of; auto using first_seen_NoDup).
    apply list_fmap_ext. intros i k _. rewrite occurrences_app. simpl.
    destruct (decide (k = x)) as [->|?].
    + rewrite decide_True by done. f_equal. lia.
    + rewrite decide_False by naive_solver. f_equal. lia.
  - rewrite tally_add_fresh by (by rewrite first_seen_elem_of).
    rewrite fmap_app. simpl. f_equal.
    + apply list_fmap_ext. intros i k Hk. apply list_elem_of_lookup_2 in Hk.
      rewrite first_seen_elem_of in Hk.
      rewrite occurrences_app. simpl.
      rewrite decide_False by (intros ->; done). f_equal. lia.
    + rewrite occurrences_app, (occurrences_0 x l) by done. simpl.
      by rewrite decide_True.
Qed.

Lemma tally_add_sum k acc :
  sum_list (snd <$> tally_add k acc) = S (sum_list (snd <$> acc)).
Proof.
  induction acc as [|[k' n] acc IH]; csimpl; [done|].
  case_decide; csimpl; [done|]. rewrite IH. lia.
Qed.

Lemma tally_add_positive k acc :
  Forall (λ p : string * nat, 1 ≤ snd p) acc →
  Forall (λ p : string * nat, 1 ≤ snd p) (tally_add k acc).
Proof.
  induction 1 as [|[k' n] acc Hn Hacc IH]; simpl.
  - repeat constructor.
  - case_decide; constructor; simpl in *; auto with lia.
Qed.

Lemma value_count_sum l : sum_list (snd <$> value_count l) = length l.
Proof.
  induction l as [|x l IH] using rev_ind; [done|].
  rewrite value_count_snoc, tally_add_sum, IH, length_app. simpl. lia.
Qed.

Lemma value_count_positive l : Forall (λ p : string * nat, 1 ≤ snd p) (value_count l).
Proof.
  induction l as [|x l IH] using rev_ind; [constructor|].
  rewrite value_count_snoc. by apply tally_add_positive.
Qed.

Lemma value_count_keys l : fst <$> value_count l = first_seen l.
Proof.
  rewrite value_count_tally. unfold tally_spec.
  rewrite <- list_fmap_compose. apply list_fmap_id.
Qed.

Lemma value_count_elem_of l k n :
  (k, n) ∈ value_count l ↔ k ∈ l ∧ n = occurrences k l.
Proof.
  rewrite value_count_tally. unfold tally_spec.
  rewrite list_elem_of_fmap. setoid_rewrite first_seen_elem_of.
  split.
  - intros (k' & [= -> ->] & Hin). done.
  - intros [Hin ->]. by exists k.
Qed.

(** ** What a sorter may do *)

Lemma sort_values_nil `{Sorter} : sort_values [] = [].
Proof. apply Permutation_nil_r, sort_values_perm. Qed.

Lemma insert_desc_filter x l c :
  filter (λ p : string * nat, snd p = c) (insert_desc x l)
  = filter (λ p : string * nat, snd p = c) (x :: l).
Proof.
  induction l as [|y l IH]; cbn [insert_desc]; [done|].
  case_decide as Hle; [done|].
  rewrite (filter_cons _ y), IH, !(filter_cons _ x), (filter_cons _ y).
  destruct (decide (snd x = c)), (decide (snd y = c)); try done. lia.
Qed.

Lemma stable_sorter_stable : Stable stable_sorter.
Proof.
  intros s c. cbn [sort_values stable_sorter].
  induction s as [|x s IH]; cbn [stable_sort_desc]; [done|].
  by rewrite insert_desc_filter, !(filter_cons _ x), IH.
Qed.

(** ** [process_multiselect_column], characterised *)

Lemma getitem_dropna df c : getitem (dropna df c) c = Some <$> column_values df c.
Proof.
  unfold getitem, dropna, column_values. simpl.
  induction (rows df) as [|r l IH]; [done|].
  rewrite filter_cons. csimpl.
  destruct (r !! c) as [v|] eqn:Hr.
  - rewrite decide_True by eauto. csimpl. by rewrite Hr, IH.
  - rewrite decide_False by (by intros [? ?]). done.
Qed.

Lemma rows_dropna_nil df c : rows (dropna df c) = [] ↔ column_values df c = [].
Proof.
  unfold dropna, column_values. simpl.
  induction (rows df) as [|r l IH]; [done|].
  rewrite filter_cons. csimpl.
  destruct (r !! c) as [v|] eqn:Hr.
  - rewrite decide_True by eauto. done.
  - rewrite decide_False by (by intros [? ?]). done.
Qed.

Lemma series_dropna_Some l : series_dropna (Some <$> l) = l.
Proof. unfold series_dropna. induction l; csimpl; [done|]. by f_equal. Qed.

Lemma infer_dtype_numeric l :
  infer_dtype (Some <$> l) = inf_numeric ↔ l ≠ [] ∧ Forall is_num l.
Proof.
  unfold infer_dtype. rewrite series_dropna_Some.
  destruct l as [|v l]; [split; [done|by intros [? _]]|].
  destruct (forallb is_str (v :: l)) eqn:Hs.
  - split; [done|]. intros [_ Hn]. inversion_clear Hn.
    apply andb_prop in Hs as [Hs _]. by destruct v.
  - destruct (forallb is_num (v :: l)) eqn:Hn.
    + split; [|done]. intros _. split; [done|].
      apply forallb_True. by rewrite Hn.
    + split; [done|]. intros [_ HF]. apply forallb_True in HF.
      by rewrite Hn in HF.
Qed.

Lemma tokens_of_pieces df c :
  omap id (explode (split_cell ";" <$> (Some <$> column_values df c))) = column_tokens df c.
Proof.
  unfold explode, column_values, column_tokens.
  induction (rows df) as [|r l IH]; [done|]. csimpl.
  destruct (r !! c) as [[s|z]|] eqn:Hr; csimpl; rewrite ?Hr; [|done..].
  rewrite omap_app, IH. f_equal.
  pose proof (py_split_not_nil ";" s) as Hnil.
  destruct (py_split ";" s) as [|t ts]; [done|]. clear.
  generalize (t :: ts). intros l. induction l; csimpl; [done|]. by f_equal.
Qed.

Section ProcessFacts.
Context `{Sorter}.

Lemma process_multiselect_column_present df c :
  c ∈ columns df →
  process_multiselect_column df c =
    ([], if decide (numeric_only df c) then Raise AttributeError
         else Ok (sort_values (value_count (column_tokens df c)))).
Proof.
  intros Hc. unfold process_multiselect_column.
  rewrite decide_True by done. cbv zeta.
  unfold empty. destruct (decide (column_values df c = [])) as [Hnil|Hnil].
  - rewrite bool_decide_eq_true_2 by (left; by apply rows_dropna_nil).
    rewrite decide_False by (intros [? _]; done).
    assert (column_tokens df c = []) as ->.
    { rewrite <- tokens_of_pieces, Hnil. done. }
    by rewrite sort_values_nil.
  - rewrite bool_decide_eq_false_2; last first.
    { rewrite rows_dropna_nil. intros [?| Hcols]; [done|].
      simpl in Hcols. rewrite Hcols in Hc. by apply elem_of_nil in Hc. }
    rewrite getitem_dropna. unfold str_split, str_accessor.
    destruct (decide (numeric_only df c)) as [Hnum|Hnum].
    + apply infer_dtype_numeric in Hnum as ->. done.
    + destruct (infer_dtype (Some <$> column_values df c)) eqn:Hinf;
        try (cbn; unfold value_counts; by rewrite tokens_of_pieces).
      by apply infer_dtype_numeric in Hinf.
Qed.

Lemma process_multiselect_column_absent df c :
  c ∉ columns df →
  process_multiselect_column df c =
    ([st_warning [FmtStr c; Lit " 컬럼이 데이터에 없습니다."]], Ok []).
Proof.
  intros Hc. unfold process_multiselect_column. by rewrite decide_False.
Qed.

End ProcessFacts.

Section CacheFacts.
Context `{Sorter}.

Lemma no_caches_ok : caches_ok no_caches.
Proof. split; intros ? *; discriminate. Qed.

(** A cached call returns what the body returns and shows what the body
    shows, whether the result was stored or not. *)
Lemma process_multiselect_column_cached_eq df column_name w :
  caches_ok (cached w) →
  ∃ c', caches_ok c' ∧
    load_data_cache c' = load_data_cache (cached w) ∧
    process_multiselect_column_cached df column_name w =
      (snd (process_multiselect_column df column_name),
       {| cached := c';
          shown := shown w ++ fst (process_multiselect_column df column_name) |}).
Proof.
  intros [Hp Hl]. unfold process_multiselect_column_cached, cache_data.
  destruct (cache_find _ _) as [[evs v]|] eqn:Hfind.
  - apply Hp in Hfind as ->. exists (cached w). by repeat split.
  - simpl. destruct (process_multiselect_column df column_name) as [evs [v|e]] eqn:Hbody.
    + eexists. split; [|split; [|reflexivity]]; [|done].
      split; [|exact Hl].
      intros df' c' evs' v'. simpl.
      case_decide as Hk; [|by apply Hp].
      intros [= <- <-]. by injection Hk as -> ->.
    + exists (cached w). by repeat split.
Qed.

Lemma load_data_cached_hit read_csv filepath w evs r :
  cache_find filepath (load_data_cache (cached w)) = Some (evs, r) →
  load_data_cached read_csv filepath w = (Ok r, show evs w).
Proof. intros Hfind. unfold load_data_cached, cache_data. by rewrite Hfind. Qed.

Lemma load_data_total read_csv filepath :
  ∃ evs r, load_data read_csv filepath = (evs, Ok r).
Proof.
  unfold load_data. destruct (load_data_try read_csv filepath) as [evs [r|e]].
  - by eexists _, _.
  - destruct e; by eexists _, _.
Qed.

Lemma load_data_cached_miss read_csv filepath w :
  cache_find filepath (load_data_cache (cached w)) = None →
  load_data_cached read_csv filepath w =
    (snd (load_data read_csv filepath),
     {| cached := set_load_data_cache
                    (match load_data read_csv filepath with
                     | (evs, Ok r) => (filepath, (evs, r)) :: load_data_cache (cached w)
                     | _ => load_data_cache (cached w)
                     end) (cached w);
        shown := shown w ++ fst (load_data read_csv filepath) |}).
Proof.
  intros Hfind. unfold load_data_cached, cache_data. rewrite Hfind.
  destruct (load_data_total read_csv filepath) as (evs & r & ->). done.
Qed.

Lemma load_data_cached_ok read_csv filepath w r w' :
  caches_ok (cached w) →
  load_data_cached read_csv filepath w = (r, w') →
  caches_ok (cached w') ∧
  ∃ read_csv' evs v,
    load_data read_csv' filepath = (evs, Ok v) ∧ r = Ok v ∧ shown w' = shown w ++ evs.
Proof.
  intros [Hp Hl].
  destruct (cache_find filepath (load_data_cache (cached w))) as [[evs v]|] eqn:Hfind.
  - rewrite (load_data_cached_hit _ _ _ _ _ Hfind). intros [= <- <-].
    split; [done|]. destruct (Hl _ _ _ Hfind) as [read_csv' Hbody].
    by exists read_csv', evs, v.
  - rewrite load_data_cached_miss by done.
    destruct (load_data_total read_csv filepath) as (evs & v & Hbody).
    rewrite Hbody. intros [= <- <-]. split.
    + split; [exact Hp|]. intros p evs' v'. simpl.
      case_decide as Hk; [|by apply Hl].
      intros [= <- <-]. subst p. by exists read_csv.
    + by exists read_csv, evs, v.
Qed.

End CacheFacts.

(** ** The country list *)

Lemma unique_acc l acc :
  NoDup acc →
  NoDup (fold_left unique_step l acc) ∧
  ∀ v, v ∈ fold_left unique_step l acc ↔ v ∈ acc ∨ v ∈ l.
Proof.
  revert acc. induction l as [|x l IH]; intros acc Hacc; simpl.
  - split; [done|]. intros v. rewrite elem_of_nil. tauto.
  - unfold unique_step at 2 4. case_decide as Hin.
    + destruct (IH acc Hacc) as [Hnd Hel]. split; [done|].
      intros v. rewrite Hel, elem_of_cons.
      destruct (decide (v = x)) as [->|]; tauto.
    + assert (NoDup (acc ++ [x])) as Hacc'.
      { apply NoDup_app. repeat split; [done| |apply NoDup_singleton].
        intros y Hy ->%list_elem_of_singleton. done. }
      destruct (IH _ Hacc') as [Hnd Hel]. split; [done|].
      intros v. rewrite Hel, elem_of_app, list_elem_of_singleton, elem_of_cons. tauto.
Qed.

Lemma unique_NoDup l : NoDup (unique l).
Proof. apply unique_acc. constructor. Qed.

Lemma unique_elem_of l v : v ∈ unique l ↔ v ∈ l.
Proof.
  unfold unique. destruct (unique_acc l [] (NoDup_nil_2)) as [_ ->].
  rewrite elem_of_nil. tauto.
Qed.

Lemma py_le_trans a b c : py_le a b → py_le b c → py_le a c.
Proof.
  destruct a as [s|x], b as [t|y], c as [u|z]; simpl; try done.
  - intros Hst Htu. by apply (transitivity (R := String.le) (y := t)).
  - rewrite !Is_true_true, !Z.leb_le. lia.
Qed.

Lemma py_le_total a b : is_str a = is_str b → py_le a b = false → py_le b a.
Proof.
  destruct a as [s|x], b as [t|y]; simpl; try done.
  - intros _ Hst. destruct (String.leb_total s t) as [Hle|Hle].
    + congruence.
    + by rewrite Hle.
  - intros _. rewrite Is_true_true, Z.leb_gt, Z.leb_le. lia.
Qed.

Lemma py_le_lt a b : py_le a b → a ≠ b → py_lt a b.
Proof.
  destruct a as [s|x], b as [t|y]; simpl; try done.
  - unfold String.leb, String.ltb. intros Hle Hne.
    destruct (String.compare s t) eqn:Hcmp; [|done..].
    apply String.compare_eq_iff in Hcmp. congruence.
  - rewrite Is_true_true, Z.leb_le. intros Hle Hne.
    assert (x ≠ y) by congruence. lia.
Qed.

Lemma insert_asc_perm x l : insert_asc x l ≡ₚ x :: l.
Proof.
  induction l as [|y l IH]; simpl; [done|].
  destruct (py_le x y); [done|]. rewrite IH. apply Permutation_swap.
Qed.

Lemma sort_asc_perm l : foldr insert_asc [] l ≡ₚ l.
Proof.
  induction l as [|x l IH]; simpl; [done|]. by rewrite insert_asc_perm, IH.
Qed.

Lemma insert_asc_sorted x l :
  Forall (λ y, is_str x = is_str y) l →
  StronglySorted (λ a b, py_le a b) l →
  StronglySorted (λ a b, py_le a b) (insert_asc x l).
Proof.
  intros Hkind Hs. induction Hs as [|y l Hs IH Hy]; simpl.
  - repeat constructor.
  - inversion_clear Hkind as [|? ? Hxy Hkind'].
    destruct (py_le x y) eqn:Hle.
    + constructor; [by constructor|].
      constructor; [by rewrite Hle|].
      eapply Forall_impl; [exact Hy|]. simpl. intros z Hyz.
      apply (py_le_trans _ y); [by rewrite Hle|done].
    + constructor; [by apply IH|].
      rewrite insert_asc_perm. constructor; [|done].
      by apply py_le_total.
Qed.

Lemma sort_asc_sorted l :
  (Forall is_str l ∨ Forall is_num l) →
  StronglySorted (λ a b, py_le a b) (foldr insert_asc [] l).
Proof.
  intros Hkind. induction l as [|x l IH]; simpl; [constructor|].
  apply insert_asc_sorted.
  - rewrite sort_asc_perm.
    destruct Hkind as [Hk|Hk]; inversion_clear Hk as [|? ? Hx Hl];
      (eapply Forall_impl; [exact Hl|]); intros y Hy; by destruct x, y.
  - apply IH. destruct Hkind as [Hk|Hk]; inversion_clear Hk; auto.
Qed.

Lemma StronglySorted_le_lt l :
  NoDup l → StronglySorted (λ a b, py_le a b) l → StronglySorted py_lt l.
Proof.
  intros Hnd Hs. induction Hs as [|x l Hs IH Hx]; [constructor|].
  apply NoDup_cons in Hnd as [Hnin Hnd]. constructor; [by apply IH|].
  apply Forall_forall. intros y Hy.
  apply py_le_lt; [by eapply Forall_forall in Hx|]. by intros ->.
Qed.

Lemma series_dropna_getitem df c : series_dropna (getitem df c) = column_values df c.
Proof.
  unfold series_dropna, getitem, column_values.
  induction (rows df) as [|r l IH]; csimpl; [done|].
  rewrite IH. by destruct (r !! c).
Qed.

Lemma ndarray_sort_Ok l r :
  NoDup l → ndarray_sort l = Ok r → StronglySorted py_lt r ∧ r ≡ₚ l.
Proof.
  unfold ndarray_sort. intros Hnd.
  destruct (forallb is_str l || forallb is_num l) eqn:Hkind; [|done].
  intros [= <-]. split; [|apply sort_asc_perm].
  apply StronglySorted_le_lt.
  - by rewrite sort_asc_perm.
  - apply sort_asc_sorted. apply orb_prop in Hkind as [Hk|Hk]; [left|right];
      apply forallb_True; by rewrite Hk.
Qed.

Lemma ndarray_sort_same_kind l :
  (Forall is_str l ∨ Forall is_num l) → ∃ r, ndarray_sort l = Ok r.
Proof.
  intros Hkind. unfold ndarray_sort.
  assert (forallb is_str l || forallb is_num l = true) as ->; [|by eexists].
  apply orb_true_iff.
  destruct Hkind as [Hk|Hk]; [left|right]; apply Is_true_true; by apply forallb_True.
Qed.

(** ** [load_data], characterised *)

Lemma load_data_FileNotFoundError read_csv filepath :
  read_csv filepath = Raise FileNotFoundError →
  load_data read_csv filepath =
    ([st_error [Lit "파일이 존재하지 않습니다."]], Ok (None, [])).
Proof. intros Hread. unfold load_data, load_data_try. by rewrite Hread. Qed.

Lemma load_data_Raise read_csv filepath e :
  read_csv filepath = Raise e →
  load_data read_csv filepath =
    ([st_error match e with
               | FileNotFoundError => [Lit "파일이 존재하지 않습니다."]
               | _ => [Lit "데이터 로드 중 오류 발생: "; FmtExn e]
               end], Ok (None, [])).
Proof. intros Hread. unfold load_data, load_data_try. rewrite Hread. by destruct e. Qed.

Lemma load_data_Some read_csv filepath evs df countries :
  load_data read_csv filepath = (evs, Ok (Some df, countries)) →
  read_csv filepath = Ok df ∧ evs = [] ∧
  if decide ("Country" ∈ columns df) then is_country_set df countries
  else countries = [].
Proof.
  unfold load_data, load_data_try.
  destruct (read_csv filepath) as [data|e] eqn:Hread; cbn.
  - destruct (decide ("Country" ∈ columns data)) as [Hc|Hc]; cbn.
    + rewrite series_dropna_getitem.
      destruct (ndarray_sort _) as [cs|e] eqn:Hsort; cbn.
      * intros [= <- <- <-]. rewrite decide_True by done. repeat split.
        -- by eapply ndarray_sort_Ok; [apply unique_NoDup|].
        -- apply ndarray_sort_Ok in Hsort as [_ Hperm]; [|apply unique_NoDup].
           intros Hv. rewrite Hperm in Hv. by apply unique_elem_of.
        -- apply ndarray_sort_Ok in Hsort as [_ Hperm]; [|apply unique_NoDup].
           intros Hv. rewrite Hperm. by apply unique_elem_of.
      * by destruct e.
    + intros [= <- <- <-]. by rewrite decide_False.
  - by destruct e.
Qed.

Lemma load_data_reads read_csv filepath df :
  read_csv filepath = Ok df →
  "Country" ∉ columns df ∨
    Forall is_str (column_values df "Country") ∨
    Forall is_num (column_values df "Country") →
  ∃ countries, load_data read_csv filepath = ([], Ok (Some df, countries)).
Proof.
  intros Hread Hkind. unfold load_data, load_data_try. rewrite Hread. cbn.
  destruct (decide ("Country" ∈ columns df)) as [Hc|Hc]; cbn; [|by eexists].
  destruct Hkind as [?|Hkind]; [done|].
  rewrite series_dropna_getitem.
  destruct (ndarray_sort_same_kind (unique (column_values df "Country"))) as [cs ->].
  - destruct Hkind as [Hk|Hk]; [left|right]; rewrite Forall_forall in Hk;
      apply Forall_forall; intros v Hv; rewrite unique_elem_of in Hv; by apply Hk.
  - by eexists.
Qed.

(** ** The pages, characterised *)

Lemma M_bind_eq {A B} (m : M A) (f : A → M B) w :
  (m ≫= f) w = match m w with
               | (Ok a, w') => f a w'
               | (Raise e, w') => (Raise e, w')
               end.
Proof. reflexivity. Qed.

Ltac run_M := repeat (rewrite M_bind_eq; cbn [st raise_if]); cbn [st raise_if].

Section PageFacts.
Context `{Sorter}.

Lemma show_language_usage_eq df selected_country w df_filtered evs lang_counts :
  caches_ok (cached w) →
  filter_country df selected_country = Ok df_filtered →
  process_multiselect_column df_filtered "LanguageHaveWorkedWith" = (evs, Ok lang_counts) →
  ∃ c', caches_ok c' ∧ load_data_cache c' = load_data_cache (cached w) ∧
    show_language_usage df selected_country w =
      (Ok tt,
       {| cached := c';
          shown := shown w ++
            [st_header [Lit "🚀 언어 사용 현황"];
             st_markdown [Lit "**("; FmtScalar selected_country;
                          Lit ")** 응답자들이 가장 많이 사용한 언어입니다."]] ++
            evs ++ language_usage_view selected_country lang_counts |}).
Proof.
  intros Hok Hfilter Hbody. unfold show_language_usage.
  run_M. rewrite Hfilter. run_M.
  match goal with |- context [process_multiselect_column_cached _ _ ?w0] =>
    destruct (process_multiselect_column_cached_eq df_filtered "LanguageHaveWorkedWith"
                w0 Hok) as (c' & Hok' & Hload & ->) end.
  rewrite Hbody. cbn [fst snd]. exists c'. split; [done|]. split; [done|].
  destruct lang_counts as [|p counts]; run_M; unfold st, show; cbn;
    rewrite <- ?app_assoc; reflexivity.
Qed.

Lemma show_detailed_analysis_eq topic df selected_country w df_filtered
    label column_name evs result_counts :
  caches_ok (cached w) →
  filter_country df selected_country = Ok df_filtered →
  analysis_options !! topic = Some (label, column_name) →
  process_multiselect_column df_filtered column_name = (evs, Ok result_counts) →
  ∃ c', caches_ok c' ∧ load_data_cache c' = load_data_cache (cached w) ∧
    show_detailed_analysis topic df selected_country w =
      (Ok tt,
       {| cached := c';
          shown := shown w ++
            [st_header [Lit "🔍 언어 심층 분석"];
             st_markdown [Lit "**("; FmtScalar selected_country;
                          Lit ")** 응답자들의 상세 언어 사용 분석입니다."];
             st_subheader [Lit "분석 항목 선택하기"];
             st_selectbox [Lit "분석하고 싶은 주제를 선택하세요:"]
                          (fst <$> analysis_options)] ++
            evs ++ detailed_analysis_view selected_country label result_counts |}).
Proof.
  intros Hok Hfilter Htopic Hbody. unfold show_detailed_analysis.
  run_M. rewrite Hfilter. run_M. cbv zeta.
  assert (widget_value "" (fst <$> analysis_options) topic = label
          ∧ dict_get label analysis_options = Some column_name) as [-> Hget].
  { do 6 (destruct topic as [|topic]; [injection Htopic as <- <-; by vm_compute|]).
    done. }
  run_M. rewrite Hget. run_M.
  match goal with |- context [process_multiselect_column_cached _ _ ?w0] =>
    destruct (process_multiselect_column_cached_eq df_filtered column_name w0 Hok)
      as (c' & Hok' & Hload & ->) end.
  rewrite Hbody. cbn [fst snd].
  exists c'. split; [done|]. split; [done|].
  destruct result_counts as [|p counts]; run_M; unfold st, show; cbn;
    rewrite <- ?app_assoc; reflexivity.
Qed.

End PageFacts.

(** ** One run, characterised *)

Section MainFacts.
Context `{Sorter}.

Lemma main_eq read_csv ui w :
  main read_csv ui w =
    match load_data_cached read_csv "./survey_results_small.csv" w with
    | (Ok (Some df_public, countries), w1) =>
        let selected_menu := widget_value "" menu_options (menu_choice ui) in
        let country_options := SStr "전체" :: countries in
        let selected_country :=
          widget_value (SStr "전체") country_options (country_choice ui) in
        let w2 :=
          show [st_sidebar_title [Lit "메뉴"];
                st_sidebar_radio [Lit "메뉴를 선택하세요"] menu_options;
                st_sidebar_markdown [Lit "---"];
                st_sidebar_subheader [Lit "🌍 국가 필터"];
                st_sidebar_selectbox [Lit "국가를 선택하세요"] country_options] w1 in
        if decide (selected_menu = "🏠 Home") then show_home df_public w2
        else if decide (selected_menu = "🚀 언어 사용 현황")
             then show_language_usage df_public selected_country w2
        else if decide (selected_menu = "🔍 언어 심층 분석")
             then show_detailed_analysis (topic_choice ui) df_public selected_country w2
        else (Ok tt, w2)
    | (Ok (None, _), w1) =>
        (Ok tt, show [st_error [Lit "데이터 로딩에 실패하여 앱을 실행할 수 없습니다."]] w1)
    | (Raise e, w1) => (Raise e, w1)
    end.
Proof.
  unfold main. rewrite M_bind_eq.
  destruct (load_data_cached read_csv _ w) as [[[[df|] countries]|e] w1]; [|done..].
  run_M. cbv zeta. unfold show. cbn [cached shown].
  rewrite <- !app_assoc. cbn [app]. repeat case_decide; reflexivity.
Qed.

End MainFacts.

(** ** The stored results stay the body's

    Every state that runs of the script reach from empty caches satisfies
    [caches_ok]. *)

Section Invariant.
Context `{Sorter}.

Lemma keeps_st e : keeps_caches_ok (st e).
Proof. by intros w Hok. Qed.

Lemma keeps_raise_if {A} (r : result A) : keeps_caches_ok (raise_if r).
Proof. by intros w Hok. Qed.

Lemma keeps_mret {A} (a : A) : keeps_caches_ok (mret a : M A).
Proof. by intros w Hok. Qed.

Lemma keeps_bind {A B} (m : M A) (f : A → M B) :
  keeps_caches_ok m → (∀ a, keeps_caches_ok (f a)) → keeps_caches_ok (m ≫= f).
Proof.
  intros Hm Hf w Hok. rewrite M_bind_eq. specialize (Hm w Hok).
  destruct (m w) as [[a|e] w1]; [by apply Hf|done].
Qed.

Lemma keeps_process_multiselect_column_cached df column_name :
  keeps_caches_ok (process_multiselect_column_cached df column_name).
Proof.
  intros w Hok.
  by destruct (process_multiselect_column_cached_eq df column_name w Hok)
    as (c' & Hok' & _ & ->).
Qed.

Lemma keeps_load_data_cached read_csv filepath :
  keeps_caches_ok (load_data_cached read_csv filepath).
Proof.
  intros w Hok. destruct (load_data_cached read_csv filepath w) as [r w'] eqn:Hcall.
  by destruct (load_data_cached_ok _ _ _ _ _ Hok Hcall) as [Hok' _].
Qed.

Ltac keeps :=
  repeat first
    [ apply keeps_st | apply keeps_raise_if | apply keeps_mret
    | apply keeps_process_multiselect_column_cached
    | apply keeps_load_data_cached
    | apply keeps_bind; [|intros ?]
    | match goal with
      | |- keeps_caches_ok (match ?x with _ => _ end) => destruct x
      | |- keeps_caches_ok (if ?x then _ else _) => destruct x
      | |- keeps_caches_ok (let _ := _ in _) => cbv zeta
      end ].

Lemma keeps_show_home df : keeps_caches_ok (show_home df).
Proof. unfold show_home. keeps. Qed.

Lemma keeps_show_language_usage df selected_country :
  keeps_caches_ok (show_language_usage df selected_country).
Proof. unfold show_language_usage. keeps. Qed.

Lemma keeps_show_detailed_analysis topic df selected_country :
  keeps_caches_ok (show_detailed_analysis topic df selected_country).
Proof. unfold show_detailed_analysis. keeps. Qed.

Lemma keeps_main read_csv ui : keeps_caches_ok (main read_csv ui).
Proof.
  unfold main. keeps; auto using keeps_show_home, keeps_show_language_usage,
    keeps_show_detailed_analysis.
Qed.

Lemma reachable_caches_ok c : reachable c → caches_ok c.
Proof.
  induction 1 as [|c read_csv ui _ IH]; [apply no_caches_ok|].
  by apply (keeps_main read_csv ui (start c)).
Qed.

End Invariant.

(** ** Unique answers of a sorter *)

Lemma sort_values_distinct `{Sorter} (s s' : Series) :
  s' ≡ₚ s →
  StronglySorted (λ a b : string * nat, snd b ≤ snd a) s' →
  (∀ x1 x2, x1 ∈ s' → x2 ∈ s' → snd x1 = snd x2 → x1 = x2) →
  sort_values s = s'.
Proof.
  intros Hperm Hsorted Hdistinct.
  apply (StronglySorted_unique_strong (λ a b : string * nat, snd b ≤ snd a)).
  - intros x1 x2 Hx1 Hx2 H12 H21. apply Hdistinct; [|done|lia].
    by rewrite Hperm, <- (sort_values_perm s).
  - apply sort_values_desc.
  - done.
  - by rewrite sort_values_perm.
Qed.

(** * The claims *)

(** C1, as stated, fails.  On a column of the table whose values are
    numbers the function raises [AttributeError] instead of returning a
    tally.  And the order among equal counts is the one numpy's quicksort
    leaves, not the first-seen order: of three hundred languages answered
    once each, all tied, the third of the result is not the third
    language seen. *)
Lemma numbers_raise_and_quicksort_moves_ties :
  "WorkExp" ∈ columns work_experience_table ∧
  (∀ S : Sorter,
     @process_multiselect_column S work_experience_table "WorkExp"
     = ([], Raise AttributeError)) ∧
  column_tokens many_languages_table "Lang" = many_languages ∧
  nargsort_descending (replicate 300 1) ≠ Some (seq 0 300) ∧
  ∃ counts,
    @process_multiselect_column numpy_sorter many_languages_table "Lang"
    = ([], Ok counts) ∧
    counts ≡ₚ tally_spec many_languages ∧
    Forall (λ p : string * nat, snd p = 1) counts ∧
    counts ≠ tally_spec many_languages.
Proof.
  split; [by apply list_elem_of_singleton|]. split; [|split; [|split]].
  - intros S. rewrite process_multiselect_column_present
      by (by apply list_elem_of_singleton).
    reflexivity.
  - vm_compute. reflexivity.
  - intros Heq. apply (f_equal (λ o : option (list nat), o ≫= (.!! 2))) in Heq.
    vm_compute in Heq. discriminate.
  - assert (column_tokens many_languages_table "Lang" = many_languages) as Htokens
      by (vm_compute; reflexivity).
    eexists. split; [|split; [|split]].
    + rewrite process_multiselect_column_present by (by apply list_elem_of_singleton).
      rewrite decide_False by (intros [_ Hall]; by inversion_clear Hall).
      rewrite Htokens. reflexivity.
    + by rewrite sort_values_perm, value_count_tally.
    + rewrite sort_values_perm, value_count_tally. apply Forall_forall.
      intros p Hp. apply (bool_decide_unpack _).
      revert p Hp. apply Forall_forall. vm_compute. repeat constructor.
    + intros Heq. apply (f_equal (λ l : Series, fst <$> l !! 2)) in Heq.
      vm_compute in Heq. discriminate.
Qed.

(** C1 (amended): for every column of the table whose values are not all
    numbers, [process_multiselect_column] returns the tally of the
    flattened tokens (every distinct token once, with its number of
    occurrences) in descending order of count; under a stable sorter,
    entries of equal count are in first-seen order.  On a column whose
    values are all numbers it raises [AttributeError].  The example table
    yields exactly [("Go", 2); ("Python", 1)], whatever the sorter. *)
Theorem process_multiselect_column_tally (S : Sorter) :
  (∀ df column_name,
     column_name ∈ columns df → ¬ numeric_only df column_name →
     ∃ counts,
       process_multiselect_column df column_name = ([], Ok counts) ∧
       counts ≡ₚ tally_spec (column_tokens df column_name) ∧
       StronglySorted (λ a b : string * nat, snd b ≤ snd a) counts ∧
       (Stable S → ∀ n,
          filter (λ p : string * nat, snd p = n) counts
          = filter (λ p : string * nat, snd p = n)
                   (tally_spec (column_tokens df column_name)))) ∧
  (∀ df column_name,
     column_name ∈ columns df → numeric_only df column_name →
     process_multiselect_column df column_name = ([], Raise AttributeError)) ∧
  process_multiselect_column languages_table "LanguageHaveWorkedWith"
  = ([], Ok [("Go", 2); ("Python", 1)]).
Proof.
  split; [|split].
  - intros df c Hc Hnum. eexists. split; [|split; [|split]].
    + rewrite process_multiselect_column_present by done.
      by rewrite decide_False.
    + rewrite sort_values_perm. by rewrite value_count_tally.
    + apply sort_values_desc.
    + intros Hstable n. by rewrite Hstable, value_count_tally.
  - intros df c Hc Hnum. rewrite process_multiselect_column_present by done.
    by rewrite decide_True.
  - rewrite process_multiselect_column_present by (by apply list_elem_of_singleton).
    rewrite decide_False; last first.
    { intros [_ Hall]. by inversion_clear Hall. }
    do 2 f_equal. apply sort_values_distinct.
    + apply Permutation_swap.
    + repeat constructor; simpl; lia.
    + intros x1 x2 Hx1 Hx2.
      repeat (apply elem_of_cons in Hx1 as [->|Hx1]);
        repeat (apply elem_of_cons in Hx2 as [->|Hx2]);
        try done; by apply elem_of_nil in Hx1 || by apply elem_of_nil in Hx2.
Qed.

Lemma process_multiselect_column_tally_witness :
  ("Lang" ∈ columns ties_table ∧ ¬ numeric_only ties_table "Lang") ∧
  ∃ counts,
    @process_multiselect_column stable_sorter ties_table "Lang" = ([], Ok counts) ∧
    filter (λ p : string * nat, snd p = 2) counts = [("b", 2); ("a", 2); ("c", 2)].
Proof.
  assert ("Lang" ∈ columns ties_table) as Hc by (by apply list_elem_of_singleton).
  assert (¬ numeric_only ties_table "Lang") as Hnum.
  { intros [_ Hall]. by inversion_clear Hall. }
  split; [done|].
  destruct (proj1 (process_multiselect_column_tally stable_sorter) ties_table "Lang" Hc Hnum)
    as (counts & Heq & _ & _ & Hties).
  exists counts. split; [done|].
  by rewrite (Hties stable_sorter_stable 2).
Defined.

Lemma column_tokens_elem_of df c (r : gmap string scalar) s t :
  r ∈ rows df → r !! c = Some (SStr s) → t ∈ py_split ";" s → t ∈ column_tokens df c.
Proof.
  intros Hr Hs Ht. unfold column_tokens. apply list_elem_of_bind.
  exists r. by rewrite Hs.
Qed.

Lemma not_numeric_only_string df c (r : gmap string scalar) s :
  r ∈ rows df → r !! c = Some (SStr s) → ¬ numeric_only df c.
Proof.
  intros Hr Hs [_ Hall]. rewrite Forall_forall in Hall.
  apply (Hall (SStr s)). unfold column_values. apply list_elem_of_omap. by exists r.
Qed.

Ltac sorted_example :=
  do 2 f_equal; apply sort_values_distinct;
  [ first [reflexivity | apply Permutation_swap]
  | repeat constructor; simpl; lia
  | let x1 := fresh in let x2 := fresh in let H1 := fresh in let H2 := fresh in
    intros x1 x2 H1 H2;
    repeat (apply elem_of_cons in H1 as [->|H1]);
    repeat (apply elem_of_cons in H2 as [->|H2]);
    try done; (by apply elem_of_nil in H1) || (by apply elem_of_nil in H2) ].

Lemma column_tokens_from_a_string df c t :
  t ∈ column_tokens df c →
  ∃ (r : gmap string scalar) s,
    r ∈ rows df ∧ r !! c = Some (SStr s) ∧ t ∈ py_split ";" s.
Proof.
  unfold column_tokens. intros (r & Ht & Hr)%list_elem_of_bind.
  destruct (r !! c) as [[s|z]|] eqn:Hcell; [|by apply elem_of_nil in Ht..].
  by exists r, s.
Qed.

(** C2, as stated, fails for a cell that holds a number, which is not
    missing: [str.split] leaves a number among strings unsplit and
    missing, so that it gives no token at all, and on a column of numbers
    the [.str] accessor raises [AttributeError]. *)
Lemma a_number_is_not_split :
  SNum 3 ∈ column_values number_among_answers_table "Lang" ∧
  (∀ S : Sorter,
     @process_multiselect_column S number_among_answers_table "Lang"
     = ([], Ok [("Go", 2); ("Rust", 1)])) ∧
  SNum 3 ∈ column_values work_experience_table "WorkExp" ∧
  (∀ S : Sorter,
     @process_multiselect_column S work_experience_table "WorkExp"
     = ([], Raise AttributeError)).
Proof.
  split; [|split; [|split]].
  - apply elem_of_cons. right. apply elem_of_cons. by left.
  - intros S. rewrite process_multiselect_column_present
      by (by apply list_elem_of_singleton).
    rewrite decide_False by (intros [_ Hall]; by inversion_clear Hall).
    sorted_example.
  - apply elem_of_cons. by left.
  - intros S. rewrite process_multiselect_column_present
      by (by apply list_elem_of_singleton).
    reflexivity.
Qed.

(** C2 (amended): a cell that holds a string is split at every [;] and
    nowhere else, and nothing is trimmed or dropped: joining the pieces
    with [;] gives the cell back, there is one piece more than there are
    separators, and splitting is the only way to cut a string into
    separator-free pieces.  Every piece of every string cell is counted,
    the empty piece between two consecutive separators included.  A cell
    that holds a number is not split: every token counted is a piece of a
    string cell, and a column of numbers raises [AttributeError]. *)
Theorem split_is_literal (S : Sorter) :
  (∀ s, py_join ";" (py_split ";" s) = s) ∧
  (∀ s, length (py_split ";" s) = 1 + count_sep ";" s) ∧
  (∀ l, l ≠ [] → Forall (sep_free ";") l → py_split ";" (py_join ";" l) = l) ∧
  py_split ";" "Go;;Rust" = ["Go"; ""; "Rust"] ∧
  py_split ";" " Go ; Rust " = [" Go "; " Rust "] ∧
  (∀ df column_name (r : gmap string scalar) s t,
     column_name ∈ columns df → r ∈ rows df →
     r !! column_name = Some (SStr s) → t ∈ py_split ";" s →
     ∃ counts,
       process_multiselect_column df column_name = ([], Ok counts) ∧
       (t, occurrences t (column_tokens df column_name)) ∈ counts ∧
       1 ≤ occurrences t (column_tokens df column_name)) ∧
  (∃ counts,
     process_multiselect_column double_separator_table "Lang" = ([], Ok counts) ∧
     counts ≡ₚ [("Go", 1); ("", 1); ("Rust", 1)]) ∧
  (∀ df column_name evs counts t n,
     column_name ∈ columns df →
     process_multiselect_column df column_name = (evs, Ok counts) →
     (t, n) ∈ counts →
     ∃ (r : gmap string scalar) s,
       r ∈ rows df ∧ r !! column_name = Some (SStr s) ∧ t ∈ py_split ";" s) ∧
  (∀ df column_name,
     column_name ∈ columns df → numeric_only df column_name →
     process_multiselect_column df column_name = ([], Raise AttributeError)).
Proof.
  split; [apply py_join_split|]. split; [apply py_split_length|].
  split; [apply py_split_join|]. split; [reflexivity|]. split; [reflexivity|].
  split; [|split; [|split]].
  - intros df c r s t Hc Hr Hs Ht.
    pose proof (column_tokens_elem_of _ _ _ _ _ Hr Hs Ht) as Hin.
    eexists. split; [|split].
    + rewrite process_multiselect_column_present by done.
      rewrite decide_False by (by eapply not_numeric_only_string). done.
    + rewrite sort_values_perm. by apply value_count_elem_of.
    + by apply occurrences_pos.
  - eexists. split.
    + rewrite process_multiselect_column_present by (by apply list_elem_of_singleton).
      rewrite decide_False; [done|]. intros [_ Hall]. by inversion_clear Hall.
    + apply sort_values_perm.
  - intros df c evs counts t n Hc Hbody Hin.
    rewrite process_multiselect_column_present in Hbody by done.
    destruct (decide (numeric_only df c)); [done|]. injection Hbody as <- <-.
    rewrite sort_values_perm in Hin. apply value_count_elem_of in Hin as [Hin _].
    by apply column_tokens_from_a_string.
  - intros df c Hc Hnum. rewrite process_multiselect_column_present by done.
    by rewrite decide_True.
Qed.

Lemma split_is_literal_witness :
  ∃ counts,
    @process_multiselect_column stable_sorter double_separator_table "Lang"
    = ([], Ok counts) ∧
    ("", occurrences "" (column_tokens double_separator_table "Lang")) ∈ counts ∧
    1 ≤ occurrences "" (column_tokens double_separator_table "Lang").
Proof.
  apply (proj1 (proj2 (proj2 (proj2 (proj2 (proj2 (split_is_literal stable_sorter))))))
           double_separator_table "Lang" {[ "Lang" := SStr "Go;;Rust" ]} "Go;;Rust" "").
  - by apply list_elem_of_singleton.
  - by apply list_elem_of_singleton.
  - reflexivity.
  - apply elem_of_cons. right. apply elem_of_cons. by left.
Defined.

(** C3: on a column name the table does not have, the function shows one
    warning and returns the empty series; it does not raise.  The decorated
    function does the same, on a stored result as on a fresh one. *)
Theorem process_multiselect_column_missing_column (S : Sorter) df column_name :
  column_name ∉ columns df →
  process_multiselect_column df column_name
  = ([st_warning [FmtStr column_name; Lit " 컬럼이 데이터에 없습니다."]], Ok []) ∧
  ∀ w, caches_ok (cached w) →
    ∃ c', caches_ok c' ∧
      process_multiselect_column_cached df column_name w
      = (Ok [],
         {| cached := c';
            shown := shown w ++
              [st_warning [FmtStr column_name; Lit " 컬럼이 데이터에 없습니다."]] |}).
Proof.
  intros Hc. split; [by apply process_multiselect_column_absent|].
  intros w Hok.
  destruct (process_multiselect_column_cached_eq df column_name w Hok)
    as (c' & Hok' & _ & ->).
  rewrite process_multiselect_column_absent by done. by exists c'.
Qed.

Lemma process_multiselect_column_missing_column_witness :
  ("NonexistentCol" ∉ columns languages_table) ∧
  @process_multiselect_column stable_sorter languages_table "NonexistentCol"
  = ([st_warning [FmtStr "NonexistentCol"; Lit " 컬럼이 데이터에 없습니다."]], Ok []).
Proof.
  assert ("NonexistentCol" ∉ columns languages_table) as Hc.
  { intros Hin%list_elem_of_singleton. discriminate. }
  split; [done|].
  apply (proj1 (process_multiselect_column_missing_column stable_sorter
                  languages_table "NonexistentCol" Hc)).
Defined.





(** C5, as stated, fails in two ways.  A path that is there but cannot be
    read does not give the file-not-found error: [pd.read_csv] raises
    [PermissionError], and [load_data] shows the generic load error with
    its cause.  And [load_data] is decorated with [@st.cache_data], keyed
    by the path alone: once a run has loaded the file, a later run in
    which the path no longer resolves is served the stored table, no
    error is shown and the run is the one of a present file, analysis
    pages included. *)
Lemma unreadable_file_and_stored_table :
  load_data file_unreadable "./survey_results_small.csv"
  = ([st_error
        [Lit "데이터 로드 중 오류 발생: ";
         FmtExn (OtherException
                   "[Errno 13] Permission denied: './survey_results_small.csv'")]],
     Ok (None, [])) ∧
  load_data_cached file_removed "./survey_results_small.csv" (start caches_after_load)
  = (Ok (Some survey_table, [SStr "KR"; SStr "US"]), start caches_after_load) ∧
  (∀ (S : Sorter) ui,
     main file_removed ui (start caches_after_load)
     = main file_present ui (start no_caches)) ∧
  last (shown (snd (@main stable_sorter file_removed
                              {| menu_choice := 1; country_choice := 0; topic_choice := 0 |}
                              (start caches_after_load))))
  = Some (st_with_column 1
            (st_dataframe {| cf_columns := ("Language", "Count");
                             cf_rows := [("Go", 2); ("Rust", 1)] |} true)).
Proof.
  split; [reflexivity|]. split; [reflexivity|]. split; [|reflexivity].
  intros S ui. rewrite !main_eq. reflexivity.
Qed.

(** C5 (amended): when reading the path raises an exception, the body of
    [load_data] shows one error, the file-not-found error for
    [FileNotFoundError] and the generic load error with the cause for any
    other exception, and returns no table; so does a call of the decorated
    function that has no stored result for the path, and the run then
    shows that error and the closing error and nothing else: no menu and
    no analysis page.  A call that has a stored result for the path
    returns it, whatever the file system. *)
Theorem load_failure_stops_the_run (S : Sorter) read_csv ui w :
  (∀ filepath e, read_csv filepath = Raise e →
     let error :=
       st_error match e with
                | FileNotFoundError => [Lit "파일이 존재하지 않습니다."]
                | _ => [Lit "데이터 로드 중 오류 발생: "; FmtExn e]
                end in
     load_data read_csv filepath = ([error], Ok (None, [])) ∧
     (cache_find filepath (load_data_cache (cached w)) = None →
      ∃ w1, load_data_cached read_csv filepath w = (Ok (None, []), w1) ∧
            shown w1 = shown w ++ [error])) ∧
  (∀ e, read_csv "./survey_results_small.csv" = Raise e →
   cache_find "./survey_results_small.csv" (load_data_cache (cached w)) = None →
   ∃ w2, main read_csv ui w = (Ok tt, w2) ∧
         shown w2 = shown w ++
           [st_error match e with
                     | FileNotFoundError => [Lit "파일이 존재하지 않습니다."]
                     | _ => [Lit "데이터 로드 중 오류 발생: "; FmtExn e]
                     end;
            st_error [Lit "데이터 로딩에 실패하여 앱을 실행할 수 없습니다."]]) ∧
  (∀ filepath evs r,
     cache_find filepath (load_data_cache (cached w)) = Some (evs, r) →
     load_data_cached read_csv filepath w = (Ok r, show evs w)).
Proof.
  split; [|split]; [| |intros filepath evs r; by apply load_data_cached_hit].
  - intros filepath e Hread. cbv zeta. split; [by apply load_data_Raise|].
    intros Hmiss. rewrite load_data_cached_miss by done.
    rewrite (load_data_Raise _ _ _ Hread). by eexists.
  - intros e Hread Hmiss. rewrite main_eq, load_data_cached_miss by done.
    rewrite (load_data_Raise _ _ _ Hread). cbn [fst snd].
    eexists. split; [reflexivity|]. cbn [shown show]. by rewrite <- app_assoc.
Qed.

Lemma load_failure_stops_the_run_witness :
  @main stable_sorter file_removed
    {| menu_choice := 1; country_choice := 0; topic_choice := 0 |} (start no_caches)
  = (Ok tt,
     {| cached := {| load_data_cache :=
                       [("./survey_results_small.csv",
                         ([st_error [Lit "파일이 존재하지 않습니다."]], (None, [])))];
                     process_cache := [] |};
        shown := [st_error [Lit "파일이 존재하지 않습니다."];
                  st_error [Lit "데이터 로딩에 실패하여 앱을 실행할 수 없습니다."]] |}) ∧
  ∃ w2, @main stable_sorter file_unreadable
          {| menu_choice := 1; country_choice := 0; topic_choice := 0 |} (start no_caches)
        = (Ok tt, w2) ∧
        shown w2 = shown (start no_caches) ++
          [st_error
             [Lit "데이터 로드 중 오류 발생: ";
              FmtExn (OtherException
                        "[Errno 13] Permission denied: './survey_results_small.csv'")];
           st_error [Lit "데이터 로딩에 실패하여 앱을 실행할 수 없습니다."]].
Proof.
  split; [reflexivity|].
  apply (proj1 (proj2 (load_failure_stops_the_run stable_sorter file_unreadable
                  {| menu_choice := 1; country_choice := 0; topic_choice := 0 |}
                  (start no_caches)))
           (OtherException
              "[Errno 13] Permission denied: './survey_results_small.csv'"));
    reflexivity.
Defined.

(** C6: whenever [load_data] returns a table, it is the table that was
    read, and the list returned with it is strictly ascending (so without
    duplicates) and holds exactly the values of the Country column, or is
    empty when the table has no such column.  It does return the table
    whenever the file is read and the Country values are of one kind.  The
    decorated function returns a table with its own country list, too. *)
Theorem load_data_country_set (S : Sorter) read_csv filepath :
  (∀ evs df countries,
     load_data read_csv filepath = (evs, Ok (Some df, countries)) →
     read_csv filepath = Ok df ∧
     if decide ("Country" ∈ columns df) then is_country_set df countries
     else countries = []) ∧
  (∀ df, read_csv filepath = Ok df →
     "Country" ∉ columns df ∨
       Forall is_str (column_values df "Country") ∨
       Forall is_num (column_values df "Country") →
     ∃ countries, load_data read_csv filepath = ([], Ok (Some df, countries))) ∧
  (∀ w w' df countries,
     caches_ok (cached w) →
     load_data_cached read_csv filepath w = (Ok (Some df, countries), w') →
     if decide ("Country" ∈ columns df) then is_country_set df countries
     else countries = []).
Proof.
  split; [|split].
  - intros evs df countries Hbody.
    apply load_data_Some in Hbody as (Hread & _ & Hset). done.
  - apply load_data_reads.
  - intros w w' df countries Hok Hcall.
    destruct (load_data_cached_ok _ _ _ _ _ Hok Hcall)
      as (_ & read_csv' & evs & v & Hbody & [= <-] & _).
    by apply load_data_Some in Hbody as (_ & _ & Hset).
Qed.

Lemma load_data_country_set_witness :
  load_data (λ _, Ok countries_table) "./survey_results_small.csv"
  = ([], Ok (Some countries_table, [SStr "KR"; SStr "US"])) ∧
  is_country_set countries_table [SStr "KR"; SStr "US"].
Proof.
  assert (load_data (λ _, Ok countries_table) "./survey_results_small.csv"
          = ([], Ok (Some countries_table, [SStr "KR"; SStr "US"]))) as Hbody
    by reflexivity.
  split; [done|].
  apply (proj2 (proj1 (load_data_country_set stable_sorter _ _) _ _ _ Hbody)).
Defined.

(** C7, as stated, fails for a country whose name is the text of the
    sentinel.  [load_data] lists it like any other country, so it can be
    selected; the pages compare the selection with the sentinel and take
    the whole table, not the rows of that country. *)
Lemma a_country_named_like_the_sentinel :
  load_data (λ _, Ok sentinel_country_table) "./survey_results_small.csv"
  = ([], Ok (Some sentinel_country_table, [SStr "US"; SStr "전체"])) ∧
  widget_value (SStr "전체") (SStr "전체" :: [SStr "US"; SStr "전체"]) 2 = SStr "전체" ∧
  country_mask sentinel_country_table (SStr "전체")
  = Ok {| columns := ["Country"; "LanguageHaveWorkedWith"];
          rows := [ {[ "Country" := SStr "전체";
                       "LanguageHaveWorkedWith" := SStr "Go" ]} ] |} ∧
  filter_country sentinel_country_table (SStr "전체") = Ok sentinel_country_table ∧
  last (shown (snd (@main stable_sorter (λ _, Ok sentinel_country_table)
                      {| menu_choice := 1; country_choice := 2; topic_choice := 0 |}
                      (start no_caches))))
  = Some (st_with_column 1
            (st_dataframe {| cf_columns := ("Language", "Count");
                             cf_rows := [("Go", 2); ("Rust", 1)] |} true)).
Proof. repeat split; reflexivity. Qed.

(** C7 (amended): both analysis pages tally the table the country filter
    leaves.  The sentinel, and so a country spelled like it, leaves the
    table as it is; any other value keeps exactly the rows whose Country
    cell equals it.  On the example table, "KR" gives [("Go", 1)] and the
    sentinel gives [("Go", 2); ("Rust", 1)]. *)
Theorem country_filter_restricts_the_tally (S : Sorter) :
  (∀ df, filter_country df (SStr "전체") = Ok df) ∧
  (∀ df selected_country,
     selected_country ≠ SStr "전체" → "Country" ∈ columns df →
     filter_country df selected_country
     = Ok {| columns := columns df;
             rows := filter (λ r : gmap string scalar, r !! "Country" = Some selected_country)
                            (rows df) |}) ∧
  (∀ df selected_country w df_filtered evs counts,
     caches_ok (cached w) →
     filter_country df selected_country = Ok df_filtered →
     process_multiselect_column df_filtered "LanguageHaveWorkedWith" = (evs, Ok counts) →
     ∃ w', show_language_usage df selected_country w = (Ok tt, w') ∧
           ∃ before, shown w' = before ++ language_usage_view selected_country counts) ∧
  (∀ topic df selected_country w df_filtered label column_name evs counts,
     caches_ok (cached w) →
     filter_country df selected_country = Ok df_filtered →
     analysis_options !! topic = Some (label, column_name) →
     process_multiselect_column df_filtered column_name = (evs, Ok counts) →
     ∃ w', show_detailed_analysis topic df selected_country w = (Ok tt, w') ∧
           ∃ before, shown w' = before ++ detailed_analysis_view selected_country label counts) ∧
  filter_country country_lang_table (SStr "KR") = Ok country_lang_table_KR ∧
  process_multiselect_column country_lang_table_KR "Lang" = ([], Ok [("Go", 1)]) ∧
  process_multiselect_column country_lang_table "Lang" = ([], Ok [("Go", 2); ("Rust", 1)]).
Proof.
  split; [done|]. split.
  { intros df c Hc Hcol. unfold filter_country, country_mask.
    by rewrite decide_False, decide_True. }
  split.
  { intros df c w df' evs counts Hok Hfilter Hbody.
    destruct (show_language_usage_eq df c w df' evs counts Hok Hfilter Hbody)
      as (c' & _ & _ & ->).
    eexists. split; [reflexivity|]. cbn [shown]. eexists.
    rewrite !app_assoc. reflexivity. }
  split.
  { intros topic df c w df' label col evs counts Hok Hfilter Htopic Hbody.
    destruct (show_detailed_analysis_eq topic df c w df' label col evs counts
                Hok Hfilter Htopic Hbody) as (c' & _ & _ & ->).
    eexists. split; [reflexivity|]. cbn [shown]. eexists.
    rewrite !app_assoc. reflexivity. }
  split; [reflexivity|]. split.
  - rewrite process_multiselect_column_present
      by (apply elem_of_cons; right; by apply list_elem_of_singleton).
    rewrite decide_False by (intros [_ Hall]; by inversion_clear Hall).
    sorted_example.
  - rewrite process_multiselect_column_present
      by (apply elem_of_cons; right; by apply list_elem_of_singleton).
    rewrite decide_False by (intros [_ Hall]; by inversion_clear Hall).
    sorted_example.
Qed.

Lemma country_filter_restricts_the_tally_witness :
  (SStr "US" ≠ SStr "전체" ∧ "Country" ∈ columns survey_table) ∧
  filter_country survey_table (SStr "US")
  = Ok {| columns := ["Country"; "LanguageHaveWorkedWith"];
          rows := [ {[ "Country" := SStr "US";
                       "LanguageHaveWorkedWith" := SStr "Go;Rust" ]} ] |}.
Proof.
  assert (SStr "US" ≠ SStr "전체") as Hne by discriminate.
  assert ("Country" ∈ columns survey_table) as Hc by (apply elem_of_cons; by left).
  split; [done|].
  rewrite (proj1 (proj2 (country_filter_restricts_the_tally stable_sorter))
             survey_table (SStr "US") Hne Hc).
  reflexivity.
Defined.

(** C8: what a page shows is [head(15)] of the tally: its first fifteen
    entries in their order, all of them when there are at most fifteen;
    in a descending tally no entry left out counts more than one kept.
    Both pages put that frame in the chart and in the table. *)
Theorem top_15_is_the_first_15 (S : Sorter) :
  (∀ counts : Series,
     (∃ rest, counts = head 15 counts ++ rest) ∧
     length (head 15 counts) = 15 `min` length counts ∧
     (length counts ≤ 15 → head 15 counts = counts) ∧
     (StronglySorted (λ a b : string * nat, snd b ≤ snd a) counts →
      StronglySorted (λ a b : string * nat, snd b ≤ snd a) (head 15 counts) ∧
      ∀ p q, p ∈ head 15 counts → q ∈ drop 15 counts → snd q ≤ snd p)) ∧
  (∀ df selected_country w df_filtered evs counts,
     caches_ok (cached w) →
     filter_country df selected_country = Ok df_filtered →
     process_multiselect_column df_filtered "LanguageHaveWorkedWith" = (evs, Ok counts) →
     counts ≠ [] →
     ∃ w' before fig,
       show_language_usage df selected_country w = (Ok tt, w') ∧
       fig_data fig = mkCountFrame ("Language", "Count") (head 15 counts) ∧
       shown w' = before ++
         [st_with_column 0 (st_plotly_chart fig true);
          st_with_column 1 (st_subheader [Lit "Top 15 언어 (테이블)"]);
          st_with_column 1
            (st_dataframe (mkCountFrame ("Language", "Count") (head 15 counts)) true)]) ∧
  (∀ topic df selected_country w df_filtered label column_name evs counts,
     caches_ok (cached w) →
     filter_country df selected_country = Ok df_filtered →
     analysis_options !! topic = Some (label, column_name) →
     process_multiselect_column df_filtered column_name = (evs, Ok counts) →
     counts ≠ [] →
     ∃ w' before fig,
       show_detailed_analysis topic df selected_country w = (Ok tt, w') ∧
       fig_data fig = mkCountFrame ("Item", "Count") (head 15 counts) ∧
       shown w' = before ++
         [st_plotly_chart fig true;
          st_dataframe (mkCountFrame ("Item", "Count") (head 15 counts)) false]).
Proof.
  split; [|split].
  - intros counts. unfold head. split; [|split; [|split]].
    + exists (drop 15 counts). by rewrite take_drop.
    + apply length_take.
    + intros Hlen. by apply take_ge.
    + intros Hsorted. rewrite <- (take_drop 15 counts) in Hsorted.
      apply StronglySorted_app in Hsorted as (Hcross & Hkept & _).
      split; [done|]. intros p q Hp Hq. by apply Hcross.
  - intros df c w df' evs counts Hok Hfilter Hbody Hne.
    destruct (show_language_usage_eq df c w df' evs counts Hok Hfilter Hbody)
      as (c' & _ & _ & ->).
    destruct counts as [|p counts]; [done|].
    eexists _, _, _. split; [reflexivity|]. split; last first.
    { cbn [shown language_usage_view].
      rewrite !app_assoc.
      match goal with |- _ ++ [?a; ?b; ?c; ?d; ?e] = _ =>
        change [a; b; c; d; e] with ([a; b] ++ [c; d; e]) end.
      rewrite app_assoc. reflexivity. }
    reflexivity.
  - intros topic df c w df' label col evs counts Hok Hfilter Htopic Hbody Hne.
    destruct (show_detailed_analysis_eq topic df c w df' label col evs counts
                Hok Hfilter Htopic Hbody) as (c' & _ & _ & ->).
    destruct counts as [|p counts]; [done|].
    eexists _, _, _. split; [reflexivity|]. split; last first.
    { cbn [shown detailed_analysis_view].
      rewrite !app_assoc.
      match goal with |- _ ++ [?a; ?b; ?c] = _ =>
        change [a; b; c] with ([a] ++ [b; c]) end.
      rewrite app_assoc. reflexivity. }
    reflexivity.
Qed.

Lemma top_15_is_the_first_15_witness :
  head 15 twenty_counts =
  [("L01", 20); ("L02", 19); ("L03", 18); ("L04", 17); ("L05", 16);
   ("L06", 15); ("L07", 14); ("L08", 13); ("L09", 12); ("L10", 11);
   ("L11", 10); ("L12", 9); ("L13", 8); ("L14", 7); ("L15", 6)] ∧
  ∃ rest, twenty_counts = head 15 twenty_counts ++ rest.
Proof.
  split; [reflexivity|].
  apply (proj1 (proj1 (top_15_is_the_first_15 stable_sorter) twenty_counts)).
Defined.

Lemma process_multiselect_column_cached_by_id `{Sorter} df column_name w :
  process_multiselect_column_cached df column_name w =
    let '(r, evs, store) :=
      process_multiselect_column_cached_by id df column_name (process_cache (cached w)) in
    (r, {| cached := set_process_cache store (cached w); shown := shown w ++ evs |}).
Proof.
  unfold process_multiselect_column_cached, cache_data,
    process_multiselect_column_cached_by.
  destruct w as [[l p] sh]. cbn [cached process_cache fst snd id].
  destruct (cache_find _ _) as [[evs v]|]; [done|].
  by destruct (process_multiselect_column df column_name) as [evs [v|e]].
Qed.

Section CachedBy.
Context `{Sorter} {K : Type} `{EqDecision K} (key : DataFrame → K).




End CachedBy.




(** C10: every count in a returned series is at least one, and the counts
    add up to the number of tokens the column's cells split into. *)
Theorem counts_are_positive_and_add_up (S : Sorter) df column_name evs counts :
  process_multiselect_column df column_name = (evs, Ok counts) →
  Forall (λ p : string * nat, 1 ≤ snd p) counts ∧
  (column_name ∈ columns df →
   sum_list (snd <$> counts) = length (column_tokens df column_name)) ∧
  (column_name ∉ columns df → counts = []).
Proof.
  intros Hbody. destruct (decide (column_name ∈ columns df)) as [Hc|Hc].
  - rewrite process_multiselect_column_present in Hbody by done.
    destruct (decide (numeric_only df column_name)); [done|].
    injection Hbody as <- <-. split; [|split; [|done]].
    + rewrite sort_values_perm. apply value_count_positive.
    + intros _. rewrite sort_values_perm. apply value_count_sum.
  - rewrite process_multiselect_column_absent in Hbody by done.
    injection Hbody as <- <-. by repeat split.
Qed.

Lemma counts_are_positive_and_add_up_witness :
  @process_multiselect_column stable_sorter languages_table "LanguageHaveWorkedWith"
  = ([], Ok [("Go", 2); ("Python", 1)]) ∧
  Forall (λ p : string * nat, 1 ≤ snd p) [("Go", 2); ("Python", 1)] ∧
  sum_list (snd <$> [("Go", 2); ("Python", 1)])
  = length (column_tokens languages_table "LanguageHaveWorkedWith").
Proof.
  assert (@process_multiselect_column stable_sorter languages_table
            "LanguageHaveWorkedWith" = ([], Ok [("Go", 2); ("Python", 1)])) as Hbody
    by reflexivity.
  split; [done|].
  destruct (counts_are_positive_and_add_up stable_sorter _ _ _ _ Hbody)
    as (Hpos & Hsum & _).
  split; [done|]. apply Hsum. by apply list_elem_of_singleton.
Defined.

(** * Further properties of the code *)

(** ** Failures of [load_data] *)

Lemma ndarray_sort_mixed l s z :
  SStr s ∈ l → SNum z ∈ l → ndarray_sort l = Raise TypeError.
Proof.
  intros Hs Hz. unfold ndarray_sort.
  destruct (forallb is_str l) eqn:Hstr.
  { assert (Forall is_str l) as Hall by (apply forallb_True; by rewrite Hstr).
    rewrite Forall_forall in Hall. by destruct (Hall _ Hz). }
  destruct (forallb is_num l) eqn:Hnum; [|done].
  assert (Forall is_num l) as Hall by (apply forallb_True; by rewrite Hnum).
  rewrite Forall_forall in Hall. by destruct (Hall _ Hs).
Qed.

Lemma load_data_None read_csv filepath evs countries :
  load_data read_csv filepath = (evs, Ok (None, countries)) →
  countries = [] ∧ ∃ body, evs = [st_error body].
Proof.
  unfold load_data, load_data_try.
  destruct (read_csv filepath) as [data|e] eqn:Hread; cbn.
  - destruct (decide ("Country" ∈ columns data)); cbn; [|done].
    destruct (ndarray_sort _) as [cs|e']; cbn; [done|].
    destruct e'; intros [= <- <-]; eauto.
  - destruct e; intros [= <- <-]; eauto.
Qed.

(** X1: [load_data] never raises.  Whatever [pd.read_csv] raises is shown
    as one error, the file-not-found text for [FileNotFoundError] and the
    generic text with the exception for anything else, and no table is
    returned.  A file that is read but whose Country column holds strings
    next to numbers fails the same way, on the [TypeError] of the sort.
    A table is returned exactly when nothing is shown. *)
Theorem load_data_reports_every_failure read_csv filepath :
  (∃ evs r, load_data read_csv filepath = (evs, Ok r)) ∧
  (∀ e, read_csv filepath = Raise e →
     load_data read_csv filepath =
       ([st_error match e with
                  | FileNotFoundError => [Lit "파일이 존재하지 않습니다."]
                  | _ => [Lit "데이터 로드 중 오류 발생: "; FmtExn e]
                  end], Ok (None, []))) ∧
  (∀ df s z, read_csv filepath = Ok df → "Country" ∈ columns df →
     SStr s ∈ column_values df "Country" → SNum z ∈ column_values df "Country" →
     load_data read_csv filepath =
       ([st_error [Lit "데이터 로드 중 오류 발생: "; FmtExn TypeError]], Ok (None, []))) ∧
  (∀ evs countries, load_data read_csv filepath = (evs, Ok (None, countries)) →
     countries = [] ∧ ∃ body, evs = [st_error body]) ∧
  (∀ evs df countries, load_data read_csv filepath = (evs, Ok (Some df, countries)) →
     evs = []).
Proof.
  split; [apply load_data_total|]. split; [apply load_data_Raise|].
  split; [|split; [apply load_data_None|]].
  - intros df s z Hread Hc Hs Hz. unfold load_data, load_data_try.
    rewrite Hread. cbn. rewrite decide_True by done. cbn.
    rewrite series_dropna_getitem.
    rewrite (ndarray_sort_mixed _ s z) by (by apply unique_elem_of). done.
  - intros evs df countries Hbody. by apply load_data_Some in Hbody as (_ & -> & _).
Qed.

Lemma load_data_reports_every_failure_witness :
  load_data (λ _, Ok mixed_countries_table) "./survey_results_small.csv"
  = ([st_error [Lit "데이터 로드 중 오류 발생: "; FmtExn TypeError]], Ok (None, [])).
Proof.
  apply (proj1 (proj2 (proj2 (load_data_reports_every_failure
                                (λ _, Ok mixed_countries_table)
                                "./survey_results_small.csv")))
           mixed_countries_table "KR" 82%Z).
  - reflexivity.
  - by apply list_elem_of_singleton.
  - apply elem_of_cons. by left.
  - apply elem_of_cons. right. apply elem_of_cons. by left.
Defined.

(** ** What [st.cache_data] keeps *)

Section FailedLoad.
Context `{Sorter}.

Lemma main_without_table read_csv ui w countries w1 :
  load_data_cached read_csv "./survey_results_small.csv" w = (Ok (None, countries), w1) →
  main read_csv ui w =
    (Ok tt, show [st_error [Lit "데이터 로딩에 실패하여 앱을 실행할 수 없습니다."]] w1).
Proof. intros Hload. by rewrite main_eq, Hload. Qed.

End FailedLoad.

(** X3: when reading the survey file raises any exception and no result
    is stored for it, the run shows the load error and the closing error
    and nothing else; and so does every later run, after any number of
    runs in between, with whatever files and selections, because the
    failure is what is stored and no run replaces it. *)
Theorem failed_load_is_kept (S : Sorter) read_csv ui e w :
  read_csv "./survey_results_small.csv" = Raise e →
  cache_find "./survey_results_small.csv" (load_data_cache (cached w)) = None →
  let errors :=
    [st_error match e with
              | FileNotFoundError => [Lit "파일이 존재하지 않습니다."]
              | _ => [Lit "데이터 로드 중 오류 발생: "; FmtExn e]
              end;
     st_error [Lit "데이터 로딩에 실패하여 앱을 실행할 수 없습니다."]] in
  fst (main read_csv ui w) = Ok tt ∧
  shown (snd (main read_csv ui w)) = shown w ++ errors ∧
  ∀ c', later_caches (cached (snd (main read_csv ui w))) c' →
    ∀ read_csv' ui',
      fst (main read_csv' ui' (start c')) = Ok tt ∧
      shown (snd (main read_csv' ui' (start c'))) = errors ∧
      cached (snd (main read_csv' ui' (start c'))) = c'.
Proof.
  intros Hread Hmiss. cbv zeta.
  pose proof (load_data_cached_miss read_csv _ w Hmiss) as Hload.
  rewrite (load_data_Raise _ _ _ Hread) in Hload. cbn [fst snd] in Hload.
  rewrite (main_without_table _ _ _ _ _ Hload). cbn [fst snd shown show cached].
  split; [done|]. split; [by rewrite <- app_assoc|].
  intros c' Hlater.
  match goal with |- context [st_error ?body :: _] => set (err := st_error body) end.
  assert (cache_find "./survey_results_small.csv" (load_data_cache c')
          = Some ([err], (None, []))) as Hfind.
  { induction Hlater as [|c' read_csv' ui' _ IH].
    - cbn. by rewrite decide_True.
    - rewrite (main_without_table read_csv' ui' (start c') []
                 (show [err] (start c')))
        by (by apply load_data_cached_hit).
      exact IH. }
  intros read_csv' ui'.
  rewrite (main_without_table read_csv' ui' (start c') [] (show [err] (start c')))
    by (by apply load_data_cached_hit).
  done.
Qed.

Lemma failed_load_is_kept_witness :
  shown (snd (@main stable_sorter file_present
    {| menu_choice := 1; country_choice := 0; topic_choice := 0 |}
    (start (cached (snd (@main stable_sorter file_present
       {| menu_choice := 2; country_choice := 1; topic_choice := 3 |}
       (start (cached (snd (@main stable_sorter file_removed
          {| menu_choice := 0; country_choice := 0; topic_choice := 0 |}
          (start no_caches)))))))))))
  = [st_error [Lit "파일이 존재하지 않습니다."];
     st_error [Lit "데이터 로딩에 실패하여 앱을 실행할 수 없습니다."]].
Proof.
  apply (proj1 (proj2 (proj2 (proj2 (failed_load_is_kept stable_sorter file_removed
           {| menu_choice := 0; country_choice := 0; topic_choice := 0 |}
           FileNotFoundError (start no_caches) eq_refl eq_refl))
           _ (later_run _ _ file_present
                {| menu_choice := 2; country_choice := 1; topic_choice := 3 |}
                (later_now _))
           file_present {| menu_choice := 1; country_choice := 0; topic_choice := 0 |}))).
Defined.

(** ** What a run can raise *)

Lemma widget_value_elem_of {A} (d : A) (options : list A) i :
  options ≠ [] → widget_value d options i ∈ options.
Proof.
  unfold widget_value. destruct options as [|x l]; [done|]. intros _.
  cbn [hd]. rewrite nth_lookup.
  destruct ((x :: l) !! i) as [y|] eqn:Hi; cbn.
  - by eapply list_elem_of_lookup_2.
  - apply elem_of_cons. by left.
Qed.

Lemma topic_is_an_option topic :
  ∃ label column_name,
    widget_value "" (fst <$> analysis_options) topic = label ∧
    dict_get label analysis_options = Some column_name ∧
    (label, column_name) ∈ analysis_options.
Proof.
  do 7 (try destruct topic as [|topic]);
    (eexists _, _; split; [reflexivity|]; split; [by vm_compute|]);
    apply list_elem_of_In; cbn; tauto.
Qed.

Lemma filter_country_columns df selected_country df_filtered :
  filter_country df selected_country = Ok df_filtered →
  columns df_filtered = columns df ∧ rows df_filtered `sublist_of` rows df.
Proof.
  unfold filter_country, country_mask.
  destruct (decide (selected_country = SStr "전체")); [by intros [= <-]|].
  destruct (decide ("Country" ∈ columns df)); [|done].
  intros [= <-]. split; [done|]. apply sublist_filter.
Qed.

Section RunFacts.
Context `{Sorter}.

Lemma process_multiselect_column_Raise df column_name evs e :
  process_multiselect_column df column_name = (evs, Raise e) →
  e = AttributeError ∧ evs = [] ∧
  column_name ∈ columns df ∧ numeric_only df column_name.
Proof.
  destruct (decide (column_name ∈ columns df)) as [Hc|Hc].
  - rewrite process_multiselect_column_present by done.
    destruct (decide (numeric_only df column_name)); [|done].
    by intros [= <- <-].
  - by rewrite process_multiselect_column_absent.
Qed.

Lemma show_language_usage_Raise df selected_country w df_filtered evs e :
  caches_ok (cached w) →
  filter_country df selected_country = Ok df_filtered →
  process_multiselect_column df_filtered "LanguageHaveWorkedWith" = (evs, Raise e) →
  ∃ c', caches_ok c' ∧
    show_language_usage df selected_country w =
      (Raise e,
       {| cached := c';
          shown := shown w ++
            [st_header [Lit "🚀 언어 사용 현황"];
             st_markdown [Lit "**("; FmtScalar selected_country;
                          Lit ")** 응답자들이 가장 많이 사용한 언어입니다."]] ++ evs |}).
Proof.
  intros Hok Hfilter Hbody. unfold show_language_usage.
  run_M. rewrite Hfilter. run_M.
  match goal with |- context [process_multiselect_column_cached _ _ ?w0] =>
    destruct (process_multiselect_column_cached_eq df_filtered "LanguageHaveWorkedWith"
                w0 Hok) as (c' & Hok' & Hload & ->) end.
  rewrite Hbody. cbn [fst snd]. exists c'. split; [done|].
  unfold show; cbn. by rewrite <- ?app_assoc.
Qed.

Lemma show_detailed_analysis_Raise topic df selected_country w df_filtered
    label column_name evs e :
  caches_ok (cached w) →
  filter_country df selected_country = Ok df_filtered →
  widget_value "" (fst <$> analysis_options) topic = label →
  dict_get label analysis_options = Some column_name →
  process_multiselect_column df_filtered column_name = (evs, Raise e) →
  ∃ c', caches_ok c' ∧
    show_detailed_analysis topic df selected_country w =
      (Raise e,
       {| cached := c';
          shown := shown w ++
            [st_header [Lit "🔍 언어 심층 분석"];
             st_markdown [Lit "**("; FmtScalar selected_country;
                          Lit ")** 응답자들의 상세 언어 사용 분석입니다."];
             st_subheader [Lit "분석 항목 선택하기"];
             st_selectbox [Lit "분석하고 싶은 주제를 선택하세요:"]
                          (fst <$> analysis_options)] ++ evs |}).
Proof.
  intros Hok Hfilter Hlabel Hget Hbody. unfold show_detailed_analysis.
  run_M. rewrite Hfilter. run_M. cbv zeta. rewrite Hlabel.
  run_M. rewrite Hget. run_M.
  match goal with |- context [process_multiselect_column_cached _ _ ?w0] =>
    destruct (process_multiselect_column_cached_eq df_filtered column_name w0 Hok)
      as (c' & Hok' & Hload & ->) end.
  rewrite Hbody. cbn [fst snd]. exists c'. split; [done|].
  unfold show; cbn. by rewrite <- ?app_assoc.
Qed.

Lemma show_detailed_analysis_Ok topic df selected_country w df_filtered
    label column_name evs result_counts :
  caches_ok (cached w) →
  filter_country df selected_country = Ok df_filtered →
  widget_value "" (fst <$> analysis_options) topic = label →
  dict_get label analysis_options = Some column_name →
  process_multiselect_column df_filtered column_name = (evs, Ok result_counts) →
  ∃ c', caches_ok c' ∧
    show_detailed_analysis topic df selected_country w =
      (Ok tt,
       {| cached := c';
          shown := shown w ++
            [st_header [Lit "🔍 언어 심층 분석"];
             st_markdown [Lit "**("; FmtScalar selected_country;
                          Lit ")** 응답자들의 상세 언어 사용 분석입니다."];
             st_subheader [Lit "분석 항목 선택하기"];
             st_selectbox [Lit "분석하고 싶은 주제를 선택하세요:"]
                          (fst <$> analysis_options)] ++
            evs ++ detailed_analysis_view selected_country label result_counts |}).
Proof.
  intros Hok Hfilter Hlabel Hget Hbody. unfold show_detailed_analysis.
  run_M. rewrite Hfilter. run_M. cbv zeta. rewrite Hlabel.
  run_M. rewrite Hget. run_M.
  match goal with |- context [process_multiselect_column_cached _ _ ?w0] =>
    destruct (process_multiselect_column_cached_eq df_filtered column_name w0 Hok)
      as (c' & Hok' & Hload & ->) end.
  rewrite Hbody. cbn [fst snd]. exists c'. split; [done|].
  destruct result_counts as [|p counts]; run_M; unfold st, show; cbn;
    rewrite <- ?app_assoc; reflexivity.
Qed.

Lemma show_language_usage_KeyError df selected_country w e :
  filter_country df selected_country = Raise e →
  show_language_usage df selected_country w =
    (Raise e,
     show [st_header [Lit "🚀 언어 사용 현황"];
           st_markdown [Lit "**("; FmtScalar selected_country;
                        Lit ")** 응답자들이 가장 많이 사용한 언어입니다."]] w).
Proof.
  intros Hfilter. unfold show_language_usage. run_M. rewrite Hfilter.
  unfold show; cbn. by rewrite <- ?app_assoc.
Qed.

Lemma show_detailed_analysis_KeyError topic df selected_country w e :
  filter_country df selected_country = Raise e →
  show_detailed_analysis topic df selected_country w =
    (Raise e,
     show [st_header [Lit "🔍 언어 심층 분석"];
           st_markdown [Lit "**("; FmtScalar selected_country;
                        Lit ")** 응답자들의 상세 언어 사용 분석입니다."]] w).
Proof.
  intros Hfilter. unfold show_detailed_analysis. run_M. rewrite Hfilter.
  unfold show; cbn. by rewrite <- ?app_assoc.
Qed.

(** The country a run selects passes the filter: it is the sentinel, or a
    value of the Country column of the table it was listed from. *)
Lemma selected_country_filters read_csv filepath evs df countries i :
  load_data read_csv filepath = (evs, Ok (Some df, countries)) →
  ∃ df_filtered,
    filter_country df (widget_value (SStr "전체") (SStr "전체" :: countries) i)
    = Ok df_filtered.
Proof.
  intros Hbody. apply load_data_Some in Hbody as (_ & _ & Hset).
  pose proof (widget_value_elem_of (SStr "전체") (SStr "전체" :: countries) i) as Hin.
  unfold filter_country, country_mask.
  destruct (decide (widget_value _ _ i = SStr "전체")) as [|Hne]; [by eexists|].
  apply elem_of_cons in Hin as [?|Hin]; [done| |done].
  destruct (decide ("Country" ∈ columns df)); [by eexists|].
  subst countries. by apply elem_of_nil in Hin.
Qed.

End RunFacts.

(** X4: a run never raises [KeyError]: the country it filters by is the
    sentinel or comes from the Country column of the loaded table, and the
    topic label always is a key of [analysis_options].  A run either
    completes or stops with the [AttributeError] of the [.str] accessor. *)
Theorem run_raises_only_AttributeError (S : Sorter) read_csv ui w :
  caches_ok (cached w) →
  fst (main read_csv ui w) = Ok tt ∨ fst (main read_csv ui w) = Raise AttributeError.
Proof.
  intros Hok. rewrite main_eq.
  destruct (load_data_cached read_csv _ w) as [r w1] eqn:Hload.
  destruct (load_data_cached_ok _ _ _ _ _ Hok Hload)
    as (Hok1 & read_csv' & evs & [[df|] countries] & Hbody & -> & _); [|by left].
  cbv zeta.
  destruct (selected_country_filters _ _ _ _ _ (country_choice ui) Hbody)
    as [df_filtered Hfilter].
  match goal with |- context [show ?evs0 w1] => set (w2 := show evs0 w1) end.
  assert (caches_ok (cached w2)) as Hok2 by done.
  repeat case_decide; [by left| | |by left].
  - destruct (process_multiselect_column df_filtered "LanguageHaveWorkedWith")
      as [evs' [counts|e]] eqn:Hproc.
    + destruct (show_language_usage_eq _ _ _ _ _ _ Hok2 Hfilter Hproc)
        as (c' & _ & _ & ->). by left.
    + destruct (show_language_usage_Raise _ _ _ _ _ _ Hok2 Hfilter Hproc)
        as (c' & _ & ->).
      apply process_multiselect_column_Raise in Hproc as (-> & _). by right.
  - destruct (topic_is_an_option (topic_choice ui))
      as (label & column_name & Hlabel & Hget & _).
    destruct (process_multiselect_column df_filtered column_name)
      as [evs' [counts|e]] eqn:Hproc.
    + destruct (show_detailed_analysis_Ok _ _ _ _ _ _ _ _ _
                  Hok2 Hfilter Hlabel Hget Hproc) as (c' & _ & ->). by left.
    + destruct (show_detailed_analysis_Raise _ _ _ _ _ _ _ _ _
                  Hok2 Hfilter Hlabel Hget Hproc) as (c' & _ & ->).
      apply process_multiselect_column_Raise in Hproc as (-> & _). by right.
Qed.

Lemma run_raises_only_AttributeError_witness :
  fst (@main stable_sorter (λ _, Ok numeric_topic_table)
         {| menu_choice := 1; country_choice := 0; topic_choice := 0 |}
         (start no_caches)) = Raise AttributeError ∧
  (fst (@main stable_sorter file_present
          {| menu_choice := 2; country_choice := 2; topic_choice := 5 |}
          (start no_caches)) = Ok tt ∨
   fst (@main stable_sorter file_present
          {| menu_choice := 2; country_choice := 2; topic_choice := 5 |}
          (start no_caches)) = Raise AttributeError).
Proof.
  split; [reflexivity|].
  apply (run_raises_only_AttributeError stable_sorter file_present
           {| menu_choice := 2; country_choice := 2; topic_choice := 5 |}
           (start no_caches) no_caches_ok).
Defined.

(** ** The countries offered *)

Lemma column_values_elem_of df c v :
  v ∈ column_values df c ↔ ∃ r : gmap string scalar, r ∈ rows df ∧ r !! c = Some v.
Proof. unfold column_values. apply list_elem_of_omap. Qed.

(** X5: every country that [load_data] lists is the Country of some row:
    filtering the loaded table by it never raises and leaves at least one
    row, the rows of that country and no other (unless the country is
    spelled like the sentinel, which selects the whole table). *)
Theorem listed_country_has_rows read_csv filepath evs df countries c :
  load_data read_csv filepath = (evs, Ok (Some df, countries)) →
  c ∈ countries →
  ∃ df_filtered,
    filter_country df c = Ok df_filtered ∧
    rows df_filtered ≠ [] ∧
    columns df_filtered = columns df ∧
    (c ≠ SStr "전체" →
     ∀ r : gmap string scalar,
       r ∈ rows df_filtered ↔ r ∈ rows df ∧ r !! "Country" = Some c).
Proof.
  intros Hbody Hc. apply load_data_Some in Hbody as (_ & _ & Hset).
  destruct (decide ("Country" ∈ columns df)) as [Hcol|Hcol];
    [|subst countries; by apply elem_of_nil in Hc].
  destruct Hset as [_ Hmem]. apply Hmem, column_values_elem_of in Hc as (r & Hr & Hrc).
  unfold filter_country, country_mask.
  destruct (decide (c = SStr "전체")) as [->|Hne].
  - exists df. split; [done|]. split; [|done].
    intros Hnil. rewrite Hnil in Hr. by apply elem_of_nil in Hr.
  - rewrite decide_True by done. eexists. split; [done|]. cbn. split; [|split; [done|]].
    + intros Hnil.
      by apply (filter_nil_not_elem_of
                  (λ r' : gmap string scalar, r' !! "Country" = Some c) (rows df) r).
    + intros _ r'. rewrite list_elem_of_filter. tauto.
Qed.

Lemma listed_country_has_rows_witness :
  load_data (λ _, Ok countries_table) "./survey_results_small.csv"
  = ([], Ok (Some countries_table, [SStr "KR"; SStr "US"])) ∧
  ∃ df_filtered,
    filter_country countries_table (SStr "US") = Ok df_filtered ∧
    rows df_filtered ≠ [].
Proof.
  assert (load_data (λ _, Ok countries_table) "./survey_results_small.csv"
          = ([], Ok (Some countries_table, [SStr "KR"; SStr "US"]))) as Hbody
    by reflexivity.
  split; [done|].
  assert (SStr "US" ∈ [SStr "KR"; SStr "US"]) as Hc
    by (apply elem_of_cons; right; apply elem_of_cons; by left).
  destruct (listed_country_has_rows _ _ _ _ _ _ Hbody Hc)
    as (df_filtered & Hfilter & Hrows & _).
  by exists df_filtered.
Defined.

(** ** The page without data *)

Lemma value_count_nil l : value_count l = [] ↔ l = [].
Proof.
  split; [|by intros ->]. intros Hnil.
  pose proof (value_count_sum l) as Hsum. rewrite Hnil in Hsum.
  by destruct l.
Qed.

Lemma sort_values_nil_iff `{Sorter} (s : Series) : sort_values s = [] ↔ s = [].
Proof.
  split.
  - intros Hnil. apply Permutation_nil_r. rewrite <- Hnil. symmetry.
    apply sort_values_perm.
  - intros ->. apply sort_values_nil.
Qed.

(** X6: on the usage page, for a table the country filter accepts: when
    the column holds only numbers the page stops with [AttributeError]
    after its heading.  Otherwise the page completes, and it shows its
    no-data warning exactly when the table lacks the column or no row
    left by the filter holds a string in it; it then shows no chart, only
    the missing-column warning before its own when the column is
    lacking. *)
Theorem page_without_data (S : Sorter) df selected_country w df_filtered :
  caches_ok (cached w) →
  filter_country df selected_country = Ok df_filtered →
  let heading :=
    [st_header [Lit "🚀 언어 사용 현황"];
     st_markdown [Lit "**("; FmtScalar selected_country;
                  Lit ")** 응답자들이 가장 많이 사용한 언어입니다."]] in
  let no_data :=
    st_warning [Lit "선택된 국가("; FmtScalar selected_country;
                Lit ")에 대한 데이터가 없습니다."] in
  let page := show_language_usage df selected_country w in
  ("LanguageHaveWorkedWith" ∈ columns df →
   numeric_only df_filtered "LanguageHaveWorkedWith" →
   fst page = Raise AttributeError ∧ shown (snd page) = shown w ++ heading) ∧
  (¬ ("LanguageHaveWorkedWith" ∈ columns df ∧
      numeric_only df_filtered "LanguageHaveWorkedWith") →
   ∃ evs,
     fst page = Ok tt ∧ shown (snd page) = shown w ++ heading ++ evs ∧
     (no_data ∈ evs ↔
      "LanguageHaveWorkedWith" ∉ columns df ∨
      column_tokens df_filtered "LanguageHaveWorkedWith" = []) ∧
     (no_data ∈ evs →
      evs = (if decide ("LanguageHaveWorkedWith" ∈ columns df) then []
             else [st_warning [FmtStr "LanguageHaveWorkedWith";
                               Lit " 컬럼이 데이터에 없습니다."]]) ++ [no_data])).
Proof.
  intros Hok Hfilter. cbv zeta.
  destruct (filter_country_columns _ _ _ Hfilter) as [Hcols _].
  split.
  - intros Hc Hnum.
    assert (process_multiselect_column df_filtered "LanguageHaveWorkedWith"
            = ([], Raise AttributeError)) as Hbody.
    { rewrite process_multiselect_column_present by (by rewrite Hcols).
      by rewrite decide_True. }
    destruct (show_language_usage_Raise _ _ _ _ _ _ Hok Hfilter Hbody) as (c' & _ & ->).
    cbn [fst snd shown]. by rewrite app_nil_r.
  - intros Hnot. destruct (decide ("LanguageHaveWorkedWith" ∈ columns df)) as [Hc|Hc].
    + assert (¬ numeric_only df_filtered "LanguageHaveWorkedWith") as Hnum by tauto.
      pose proof (process_multiselect_column_present df_filtered "LanguageHaveWorkedWith")
        as Hbody.
      rewrite Hcols, decide_False in Hbody by done. specialize (Hbody Hc).
      destruct (show_language_usage_eq _ _ _ _ _ _ Hok Hfilter Hbody) as (c' & _ & _ & ->).
      eexists. split; [reflexivity|]. split; [reflexivity|]. cbn [app].
      destruct (sort_values (value_count
                  (column_tokens df_filtered "LanguageHaveWorkedWith")))
        as [|p counts] eqn:Hcounts.
      * apply sort_values_nil_iff, value_count_nil in Hcounts.
        cbn [language_usage_view]. split; [|done].
        split; [by right|]. intros _. by apply list_elem_of_singleton.
      * assert (column_tokens df_filtered "LanguageHaveWorkedWith" ≠ []) as Hne.
        { intros Hnil. rewrite Hnil in Hcounts.
          by rewrite sort_values_nil in Hcounts. }
        cbn [language_usage_view].
        assert (∀ A : Prop, st_warning
                  [Lit "선택된 국가("; FmtScalar selected_country;
                   Lit ")에 대한 데이터가 없습니다."]
                ∈ language_usage_view selected_country (p :: counts) → A) as Hout.
        { intros A. cbn [language_usage_view]. rewrite !elem_of_cons, elem_of_nil.
          intros [?|[?|[?|[?|[?|[]]]]]]; discriminate. }
        split; [|by apply Hout]. split; [by apply Hout|]. tauto.
    + assert (process_multiselect_column df_filtered "LanguageHaveWorkedWith"
              = ([st_warning [FmtStr "LanguageHaveWorkedWith";
                              Lit " 컬럼이 데이터에 없습니다."]], Ok [])) as Hbody.
      { apply process_multiselect_column_absent. by rewrite Hcols. }
      destruct (show_language_usage_eq _ _ _ _ _ _ Hok Hfilter Hbody) as (c' & _ & _ & ->).
      eexists. split; [reflexivity|]. split; [reflexivity|].
      cbn [language_usage_view app]. split; [|done].
      split; [by left|]. intros _. apply elem_of_cons. right.
      by apply list_elem_of_singleton.
Qed.

Lemma page_without_data_witness :
  (fst (@show_language_usage stable_sorter numeric_topic_table (SStr "전체")
          (start no_caches)) = Raise AttributeError) ∧
  ∃ evs,
    fst (@show_language_usage stable_sorter countries_table (SStr "전체")
           (start no_caches)) = Ok tt ∧
    shown (snd (@show_language_usage stable_sorter countries_table (SStr "전체")
                  (start no_caches)))
    = [st_header [Lit "🚀 언어 사용 현황"];
       st_markdown [Lit "**("; FmtScalar (SStr "전체");
                    Lit ")** 응답자들이 가장 많이 사용한 언어입니다."]] ++ evs ∧
    evs = [st_warning [FmtStr "LanguageHaveWorkedWith"; Lit " 컬럼이 데이터에 없습니다."];
           st_warning [Lit "선택된 국가("; FmtScalar (SStr "전체");
                       Lit ")에 대한 데이터가 없습니다."]].
Proof.
  split.
  - apply (proj1 (page_without_data stable_sorter numeric_topic_table (SStr "전체")
                    (start no_caches) numeric_topic_table no_caches_ok eq_refl)).
    + by apply list_elem_of_singleton.
    + split; [discriminate|]. repeat constructor.
  - assert (¬ ("LanguageHaveWorkedWith" ∈ columns countries_table ∧
               numeric_only countries_table "LanguageHaveWorkedWith")) as Hnot.
    { intros [Hc _]. apply list_elem_of_singleton in Hc. discriminate. }
    destruct (proj2 (page_without_data stable_sorter countries_table (SStr "전체")
                       (start no_caches) countries_table no_caches_ok eq_refl) Hnot)
      as (evs & Hres & Hshown & Hiff & Hevs).
    exists evs. split; [exact Hres|]. split; [exact Hshown|].
    rewrite Hevs; [reflexivity|].
    apply Hiff. left. intros Hc. apply list_elem_of_singleton in Hc. discriminate.
Defined.

(** ** The home page *)

Lemma load_data_cached_Ok read_csv filepath w :
  ∃ r w1, load_data_cached read_csv filepath w = (Ok r, w1) ∧
          process_cache (cached w1) = process_cache (cached w).
Proof.
  destruct (cache_find filepath (load_data_cache (cached w))) as [[evs r]|] eqn:Hfind.
  - rewrite (load_data_cached_hit read_csv _ _ _ _ Hfind). by eexists _, _.
  - rewrite load_data_cached_miss by done.
    destruct (load_data_total read_csv filepath) as (evs & r & ->). by eexists _, _.
Qed.

Lemma show_home_eq df w :
  show_home df w =
    (Ok tt,
     {| cached := cached w;
        shown := shown w ++
          [st_header [Lit "🏠 HOME"];
           st_markdown [Lit "### Stack Overflow 개발자 설문조사 데이터 분석기"];
           st_text [Lit "이 앱은 Streamlit을 사용하여 프로그래밍 언어 통계를 분석합니다."]] ++
          [st_text [Lit "로드된 원본 데이터는 총 "; FmtThousands (length (rows df));
                    Lit " 명의 응답을 포함합니다."];
           st_subheader [Lit "데이터 원본 (일부)"];
           st_dataframe_rows (df_head df);
           st_info [Lit "왼쪽 사이드바에서 메뉴를 선택하여 분석을 시작하세요."]] |}).
Proof.
  unfold show_home. run_M. unfold st, show. cbn [shown cached].
  rewrite <- !app_assoc. reflexivity.
Qed.

(** X7: with Home selected a run always completes, whatever the file and
    the table, and computes no tally: the stored tallies are unchanged.
    When a table is loaded the page shows the number of all its rows and
    a preview of its first rows, five at most. *)
Theorem home_always_renders (S : Sorter) read_csv ui w :
  menu_choice ui = 0 →
  fst (main read_csv ui w) = Ok tt ∧
  process_cache (cached (snd (main read_csv ui w))) = process_cache (cached w) ∧
  ∀ df countries w1,
    load_data_cached read_csv "./survey_results_small.csv" w = (Ok (Some df, countries), w1) →
    ∃ before preview,
      shown (snd (main read_csv ui w)) = before ++
        [st_text [Lit "로드된 원본 데이터는 총 "; FmtThousands (length (rows df));
                  Lit " 명의 응답을 포함합니다."];
         st_subheader [Lit "데이터 원본 (일부)"];
         st_dataframe_rows preview;
         st_info [Lit "왼쪽 사이드바에서 메뉴를 선택하여 분석을 시작하세요."]] ∧
      columns preview = columns df ∧
      rows preview = take 5 (rows df) ∧
      length (rows preview) = 5 `min` length (rows df).
Proof.
  intros Hmenu. rewrite main_eq, Hmenu.
  destruct (load_data_cached_Ok read_csv "./survey_results_small.csv" w)
    as ([[df|] countries] & w1 & -> & Hcache).
  - cbv zeta.
    change (widget_value "" menu_options 0) with "🏠 Home".
    rewrite decide_True by reflexivity. rewrite show_home_eq.
    cbn [fst snd cached shown show].
    split; [reflexivity|]. split; [exact Hcache|].
    intros df' countries' w1' Heq. injection Heq as <- <- <-.
    eexists _, (df_head df). split.
    + rewrite app_assoc. reflexivity.
    + split; [reflexivity|]. split; [reflexivity|]. apply length_take.
  - cbn [fst snd cached shown show].
    split; [reflexivity|]. split; [exact Hcache|].
    intros df' countries' w1' Heq. discriminate Heq.
Qed.

Lemma home_always_renders_witness :
  fst (@main stable_sorter (λ _, Ok numeric_topic_table)
         {| menu_choice := 0; country_choice := 3; topic_choice := 0 |}
         (start no_caches)) = Ok tt.
Proof.
  apply (proj1 (home_always_renders stable_sorter (λ _, Ok numeric_topic_table)
                  {| menu_choice := 0; country_choice := 3; topic_choice := 0 |}
                  (start no_caches) eq_refl)).
Defined.

(** ** What the country list depends on *)

Lemma py_lt_asym a b : py_lt a b → py_lt b a → False.
Proof.
  destruct a as [s|x], b as [t|y]; simpl; try done.
  - unfold String.ltb. rewrite (String.compare_antisym t s).
    by destruct (String.compare s t).
  - lia.
Qed.

Lemma StronglySorted_py_lt_NoDup l : StronglySorted py_lt l → NoDup l.
Proof.
  induction 1 as [|x l Hs IH Hx]; [constructor|].
  apply NoDup_cons. split; [|done]. intros Hin.
  rewrite Forall_forall in Hx. by apply (py_lt_asym x x); apply Hx.
Qed.

Lemma is_country_set_unique df1 df2 cs1 cs2 :
  is_country_set df1 cs1 → is_country_set df2 cs2 →
  (∀ v, v ∈ column_values df1 "Country" ↔ v ∈ column_values df2 "Country") →
  cs1 = cs2.
Proof.
  intros [Hs1 Hm1] [Hs2 Hm2] Hsame.
  apply (StronglySorted_unique_strong py_lt); [|done..|].
  - intros x1 x2 _ _ H12 H21. by destruct (py_lt_asym x1 x2).
  - apply NoDup_Permutation; [by apply StronglySorted_py_lt_NoDup..|].
    intros v. by rewrite Hm1, Hm2.
Qed.

(** X8: the country list depends only on which values the Country column
    holds: two loaded tables whose Country columns hold the same values,
    in whatever order and however often, get the same list. *)
Theorem country_list_ignores_order_and_repeats
    read_csv1 read_csv2 filepath1 filepath2 evs1 evs2 df1 df2 countries1 countries2 :
  load_data read_csv1 filepath1 = (evs1, Ok (Some df1, countries1)) →
  load_data read_csv2 filepath2 = (evs2, Ok (Some df2, countries2)) →
  "Country" ∈ columns df1 → "Country" ∈ columns df2 →
  (∀ v, v ∈ column_values df1 "Country" ↔ v ∈ column_values df2 "Country") →
  countries1 = countries2.
Proof.
  intros (_ & _ & Hset1)%load_data_Some (_ & _ & Hset2)%load_data_Some Hc1 Hc2 Hsame.
  rewrite decide_True in Hset1 by done. rewrite decide_True in Hset2 by done.
  by eapply is_country_set_unique.
Qed.

Lemma country_list_ignores_order_and_repeats_witness :
  match load_data (λ _, Ok countries_table) "a.csv",
        load_data (λ _, Ok countries_table_reordered) "b.csv" with
  | (_, Ok (_, countries1)), (_, Ok (_, countries2)) => countries1 = countries2
  | _, _ => False
  end.
Proof.
  apply (country_list_ignores_order_and_repeats
           (λ _, Ok countries_table) (λ _, Ok countries_table_reordered)
           "a.csv" "b.csv" [] [] countries_table countries_table_reordered
           [SStr "KR"; SStr "US"] [SStr "KR"; SStr "US"] eq_refl eq_refl).
  - by apply list_elem_of_singleton.
  - by apply list_elem_of_singleton.
  - intros v.
    assert (column_values countries_table "Country"
            = [SStr "US"; SStr "KR"; SStr "US"]) as -> by reflexivity.
    assert (column_values countries_table_reordered "Country"
            = [SStr "KR"; SStr "US"]) as -> by reflexivity.
    rewrite !elem_of_cons, !elem_of_nil. tauto.
Defined.

(** ** What the tally depends on *)

Lemma occurrences_Permutation k l1 l2 : l1 ≡ₚ l2 → occurrences k l1 = occurrences k l2.
Proof. induction 1; simpl; lia. Qed.

Lemma occurrences_sublist k l1 l2 :
  l1 `sublist_of` l2 → occurrences k l1 ≤ occurrences k l2.
Proof. induction 1; simpl; lia. Qed.

Lemma value_count_NoDup l : NoDup (value_count l).
Proof.
  apply (NoDup_fmap_1 fst). rewrite value_count_keys. apply first_seen_NoDup.
Qed.

Lemma value_count_Permutation l1 l2 : l1 ≡ₚ l2 → value_count l1 ≡ₚ value_count l2.
Proof.
  intros Hperm. apply NoDup_Permutation; [apply value_count_NoDup..|].
  intros [k n]. rewrite !value_count_elem_of.
  rewrite (occurrences_Permutation k l1 l2 Hperm).
  split; intros [Hk Hn]; (split; [|done]); [by rewrite <- Hperm|by rewrite Hperm].
Qed.

Lemma column_tokens_Permutation df1 df2 c :
  rows df1 ≡ₚ rows df2 → column_tokens df1 c ≡ₚ column_tokens df2 c.
Proof. intros Hperm. unfold column_tokens. by rewrite Hperm. Qed.

Lemma numeric_only_Permutation df1 df2 c :
  rows df1 ≡ₚ rows df2 → numeric_only df1 c ↔ numeric_only df2 c.
Proof.
  intros Hperm. unfold numeric_only.
  assert (column_values df1 c ≡ₚ column_values df2 c) as Hvals
    by (unfold column_values; by rewrite Hperm).
  split; intros [Hne Hall]; split.
  - intros Hnil. rewrite Hnil in Hvals. by apply Permutation_nil_r in Hvals.
  - by rewrite <- Hvals.
  - intros Hnil. rewrite Hnil in Hvals. by apply Permutation_nil_l in Hvals.
  - by rewrite Hvals.
Qed.

Lemma column_tokens_sep_free df c : Forall (sep_free ";") (column_tokens df c).
Proof.
  apply Forall_forall. intros t (r & Ht & _)%list_elem_of_bind.
  destruct (r !! c) as [[s|z]|]; try by apply elem_of_nil in Ht.
  pose proof (py_split_sep_free ";" s) as Hfree.
  rewrite Forall_forall in Hfree. by apply Hfree.
Qed.

(** X9: the order of the rows does not matter to the tally: on the same
    rows in another order the function ends the same way, and a returned
    series holds the same entries (only entries of equal count may change
    places). *)
Theorem tally_ignores_row_order (S : Sorter) df1 df2 column_name :
  columns df1 = columns df2 → rows df1 ≡ₚ rows df2 →
  (∀ evs counts1,
     process_multiselect_column df1 column_name = (evs, Ok counts1) →
     ∃ counts2,
       process_multiselect_column df2 column_name = (evs, Ok counts2) ∧
       counts1 ≡ₚ counts2) ∧
  (∀ evs e,
     process_multiselect_column df1 column_name = (evs, Raise e) →
     process_multiselect_column df2 column_name = (evs, Raise e)).
Proof.
  intros Hcols Hrows.
  pose proof (numeric_only_Permutation df1 df2 column_name Hrows) as Hnum.
  destruct (decide (column_name ∈ columns df1)) as [Hc|Hc].
  - rewrite !process_multiselect_column_present by (by rewrite <- ?Hcols).
    destruct (decide (numeric_only df1 column_name)) as [H1|H1].
    + rewrite decide_True by tauto. split; [done|]. by intros evs e [= <- <-].
    + rewrite decide_False by tauto. split; [|done].
      intros evs counts1 [= <- <-]. eexists. split; [done|].
      rewrite !sort_values_perm.
      by apply value_count_Permutation, column_tokens_Permutation.
  - rewrite !process_multiselect_column_absent by (by rewrite <- ?Hcols).
    split; [|done]. intros evs counts1 [= <- <-]. by eexists.
Qed.

Lemma tally_ignores_row_order_witness :
  ∃ counts2,
    @process_multiselect_column stable_sorter survey_table_reversed "LanguageHaveWorkedWith"
    = ([], Ok counts2) ∧
    [("Go", 2); ("Rust", 1)] ≡ₚ counts2.
Proof.
  apply (proj1 (tally_ignores_row_order stable_sorter survey_table survey_table_reversed
                  "LanguageHaveWorkedWith" eq_refl (Permutation_swap _ _ _))).
  reflexivity.
Defined.

(** X10: a country never counts more than the whole table: every token
    tallied for the table left by the country filter is tallied for the
    whole table too, with a count at least as large. *)
Theorem country_count_at_most_overall
    (S : Sorter) df selected_country df_filtered column_name evs evs' overall part t n :
  filter_country df selected_country = Ok df_filtered →
  process_multiselect_column df column_name = (evs, Ok overall) →
  process_multiselect_column df_filtered column_name = (evs', Ok part) →
  (t, n) ∈ part →
  ∃ m, (t, m) ∈ overall ∧ n ≤ m.
Proof.
  intros Hfilter Hall Hpart Hin.
  destruct (filter_country_columns _ _ _ Hfilter) as [Hcols Hsub].
  assert (column_tokens df_filtered column_name
          `sublist_of` column_tokens df column_name) as Htok
    by (unfold column_tokens; by apply bind_sublist).
  destruct (decide (column_name ∈ columns df)) as [Hc|Hc].
  - rewrite process_multiselect_column_present in Hall by done.
    rewrite process_multiselect_column_present in Hpart by (by rewrite Hcols).
    destruct (decide (numeric_only df column_name)); [done|].
    destruct (decide (numeric_only df_filtered column_name)); [done|].
    injection Hall as <- <-. injection Hpart as <- <-.
    rewrite sort_values_perm in Hin. apply value_count_elem_of in Hin as [Ht ->].
    exists (occurrences t (column_tokens df column_name)). split.
    + rewrite sort_values_perm. apply value_count_elem_of. split; [|done].
      by eapply elem_of_sublist.
    + by apply occurrences_sublist.
  - rewrite process_multiselect_column_absent in Hpart by (by rewrite Hcols).
    injection Hpart as <- <-. by apply elem_of_nil in Hin.
Qed.

Lemma country_count_at_most_overall_witness :
  ∃ m, (("Go", m) : string * nat) ∈ [("Go", 2); ("Rust", 1)] ∧ 1 ≤ m.
Proof.
  apply (country_count_at_most_overall stable_sorter country_lang_table (SStr "KR")
           country_lang_table_KR "Lang" [] [] [("Go", 2); ("Rust", 1)] [("Go", 1)] "Go" 1
           eq_refl eq_refl eq_refl).
  by apply list_elem_of_singleton.
Defined.

(** X11: a returned series lists no token twice and no token that holds a
    separator; for a column of the table its entries are exactly the
    tokens of the column, each with its number of occurrences. *)
Theorem tally_is_a_function_of_the_tokens (S : Sorter) df column_name evs counts :
  process_multiselect_column df column_name = (evs, Ok counts) →
  NoDup (fst <$> counts) ∧
  Forall (λ p : string * nat, sep_free ";" (fst p)) counts ∧
  (column_name ∈ columns df →
   ∀ t n, (t, n) ∈ counts ↔
          t ∈ column_tokens df column_name ∧
          n = occurrences t (column_tokens df column_name)).
Proof.
  intros Hbody. destruct (decide (column_name ∈ columns df)) as [Hc|Hc].
  - rewrite process_multiselect_column_present in Hbody by done.
    destruct (decide (numeric_only df column_name)); [done|].
    injection Hbody as <- <-. split; [|split].
    + rewrite sort_values_perm, value_count_keys. apply first_seen_NoDup.
    + rewrite sort_values_perm. apply Forall_forall.
      intros [t k] [Ht _]%value_count_elem_of.
      pose proof (column_tokens_sep_free df column_name) as Hfree.
      rewrite Forall_forall in Hfree. by apply Hfree.
    + intros _ t k. rewrite sort_values_perm. apply value_count_elem_of.
  - rewrite process_multiselect_column_absent in Hbody by done.
    injection Hbody as <- <-. split; [constructor|]. split; [constructor|done].
Qed.

Lemma tally_is_a_function_of_the_tokens_witness :
  NoDup (fst <$> [("Go", 2); ("Python", 1)]) ∧
  Forall (λ p : string * nat, sep_free ";" (fst p)) [("Go", 2); ("Python", 1)].
Proof.
  destruct (tally_is_a_function_of_the_tokens stable_sorter languages_table
              "LanguageHaveWorkedWith" [] [("Go", 2); ("Python", 1)] eq_refl)
    as (Hnd & Hfree & _).
  by split.
Defined.

Lemma column_tokens_getitem df c :
  column_tokens df c =
    getitem df c ≫= (λ o : option scalar,
      match o with Some (SStr s) => py_split ";" s | _ => [] end).
Proof.
  unfold column_tokens, getitem.
  induction (rows df) as [|r l IH]; csimpl; [done|]. by rewrite IH.
Qed.

(** X12: the tally of a column depends on the cells of that column only:
    two tables that both have the column, with the same cells in it, give
    the same result, whatever their other columns hold. *)
Theorem other_columns_do_not_matter (S : Sorter) df1 df2 column_name :
  column_name ∈ columns df1 → column_name ∈ columns df2 →
  getitem df1 column_name = getitem df2 column_name →
  process_multiselect_column df1 column_name = process_multiselect_column df2 column_name.
Proof.
  intros Hc1 Hc2 Hcells. rewrite !process_multiselect_column_present by done.
  rewrite !column_tokens_getitem, Hcells. f_equal. apply decide_ext.
  unfold numeric_only. by rewrite <- !series_dropna_getitem, Hcells.
Qed.

Lemma other_columns_do_not_matter_witness :
  @process_multiselect_column stable_sorter survey_table "LanguageHaveWorkedWith"
  = @process_multiselect_column stable_sorter answers_table "LanguageHaveWorkedWith".
Proof.
  apply (other_columns_do_not_matter stable_sorter survey_table answers_table
           "LanguageHaveWorkedWith").
  - apply elem_of_cons. right. by apply list_elem_of_singleton.
  - by apply list_elem_of_singleton.
  - reflexivity.
Defined.

Lemma column_tokens_length df c :
  length (column_tokens df c)
  = length (string_cells df c) + sum_list (count_sep ";" <$> string_cells df c).
Proof.
  unfold column_tokens, string_cells.
  induction (rows df) as [|r l IH]; csimpl; [done|].
  rewrite length_app, IH.
  destruct (r !! c) as [[s|z]|]; csimpl; [|lia..].
  rewrite py_split_length. lia.
Qed.

(** X13: the counts of a returned series add up to the number of cells of
    the column that hold a string plus the number of separators in those
    cells; so they add up to at least the number of such cells, an empty
    string counting as one token. *)
Theorem counts_add_up_to_cells_and_separators (S : Sorter) df column_name evs counts :
  column_name ∈ columns df →
  process_multiselect_column df column_name = (evs, Ok counts) →
  sum_list (snd <$> counts)
  = length (string_cells df column_name)
    + sum_list (count_sep ";" <$> string_cells df column_name) ∧
  length (string_cells df column_name) ≤ sum_list (snd <$> counts).
Proof.
  intros Hc Hbody. rewrite process_multiselect_column_present in Hbody by done.
  destruct (decide (numeric_only df column_name)); [done|].
  injection Hbody as <- <-.
  rewrite sort_values_perm, value_count_sum, column_tokens_length. lia.
Qed.

Lemma counts_add_up_to_cells_and_separators_witness :
  sum_list (snd <$> [("Go", 1); ("", 1); ("Rust", 1)])
  = length (string_cells double_separator_table "Lang")
    + sum_list (count_sep ";" <$> string_cells double_separator_table "Lang") ∧
  length (string_cells double_separator_table "Lang")
  ≤ sum_list (snd <$> [("Go", 1); ("", 1); ("Rust", 1)]).
Proof.
  apply (counts_add_up_to_cells_and_separators stable_sorter double_separator_table
           "Lang" [] [("Go", 1); ("", 1); ("Rust", 1)]).
  - by apply list_elem_of_singleton.
  - reflexivity.
Defined.

(** ** From one run to the next *)

Section Reruns.
Context `{Sorter}.

Lemma caches_extend_refl c : caches_extend c c.
Proof. by split. Qed.

Lemma caches_extend_trans c1 c2 c3 :
  caches_extend c1 c2 → caches_extend c2 c3 → caches_extend c1 c3.
Proof. intros [Hl Hp] [Hl' Hp']. split; intros k v Hfind; auto. Qed.

Lemma stored_st e : keeps_stored (st e).
Proof. intros w. apply caches_extend_refl. Qed.

Lemma stored_raise_if {A} (r : result A) : keeps_stored (raise_if r).
Proof. intros w. apply caches_extend_refl. Qed.

Lemma stored_mret {A} (a : A) : keeps_stored (mret a : M A).
Proof. intros w. apply caches_extend_refl. Qed.

Lemma stored_bind {A B} (m : M A) (f : A → M B) :
  keeps_stored m → (∀ a, keeps_stored (f a)) → keeps_stored (m ≫= f).
Proof.
  intros Hm Hf w. rewrite M_bind_eq. specialize (Hm w).
  destruct (m w) as [[a|e] w1]; [|done].
  eapply caches_extend_trans; [exact Hm|apply Hf].
Qed.

Lemma stored_process_multiselect_column_cached df column_name :
  keeps_stored (process_multiselect_column_cached df column_name).
Proof.
  intros w. unfold process_multiselect_column_cached, cache_data.
  destruct (cache_find _ _) as [[evs v]|] eqn:Hfind; [apply caches_extend_refl|].
  destruct (process_multiselect_column _ _) as [evs [v|e]]; [|apply caches_extend_refl].
  split; [done|]. intros k v' Hk. cbn.
  case_decide as Heq; [|done]. subst k. congruence.
Qed.

Lemma stored_load_data_cached read_csv filepath :
  keeps_stored (load_data_cached read_csv filepath).
Proof.
  intros w. unfold load_data_cached, cache_data.
  destruct (cache_find _ _) as [[evs v]|] eqn:Hfind; [apply caches_extend_refl|].
  destruct (load_data _ _) as [evs [v|e]]; [|apply caches_extend_refl].
  split; [|done]. intros k v' Hk. cbn.
  case_decide as Heq; [|done]. subst k. congruence.
Qed.

Ltac stored :=
  repeat first
    [ apply stored_st | apply stored_raise_if | apply stored_mret
    | apply stored_process_multiselect_column_cached
    | apply stored_load_data_cached
    | apply stored_bind; [|intros ?]
    | match goal with
      | |- keeps_stored (match ?x with _ => _ end) => destruct x
      | |- keeps_stored (if ?x then _ else _) => destruct x
      | |- keeps_stored (let _ := _ in _) => cbv zeta
      end ].

Lemma stored_show_home df : keeps_stored (show_home df).
Proof. unfold show_home. stored. Qed.

Lemma stored_show_language_usage df selected_country :
  keeps_stored (show_language_usage df selected_country).
Proof. unfold show_language_usage. stored. Qed.

Lemma stored_show_detailed_analysis topic df selected_country :
  keeps_stored (show_detailed_analysis topic df selected_country).
Proof. unfold show_detailed_analysis. stored. Qed.

Lemma same_st e : same_from_any_caches (st e).
Proof. intros wa wb _ _. split; [done|]. by exists [e]. Qed.

Lemma same_raise_if {A} (r : result A) : same_from_any_caches (raise_if r).
Proof. intros wa wb _ _. split; [done|]. exists []. by rewrite !app_nil_r. Qed.

Lemma same_mret {A} (a : A) : same_from_any_caches (mret a : M A).
Proof. intros wa wb _ _. split; [done|]. exists []. by rewrite !app_nil_r. Qed.

Lemma same_bind {A B} (m : M A) (f : A → M B) :
  same_from_any_caches m → keeps_caches_ok m →
  (∀ a, same_from_any_caches (f a)) → same_from_any_caches (m ≫= f).
Proof.
  intros Hm Hk Hf wa wb Ha Hb. rewrite !M_bind_eq.
  destruct (Hm wa wb Ha Hb) as (Hr & evs & Hsa & Hsb).
  pose proof (Hk wa Ha) as Ha'. pose proof (Hk wb Hb) as Hb'.
  destruct (m wa) as [[a|e] wa'], (m wb) as [[b|e'] wb'];
    cbn [fst snd] in *; try discriminate.
  - injection Hr as ->.
    destruct (Hf b wa' wb' Ha' Hb') as (Hr' & evs' & Hsa' & Hsb').
    split; [done|]. exists (evs ++ evs').
    by rewrite Hsa', Hsb', Hsa, Hsb, !app_assoc.
  - injection Hr as ->. split; [reflexivity|]. by exists evs.
Qed.

Lemma same_process_multiselect_column_cached df column_name :
  same_from_any_caches (process_multiselect_column_cached df column_name).
Proof.
  intros wa wb Ha Hb.
  destruct (process_multiselect_column_cached_eq df column_name wa Ha)
    as (ca & _ & _ & ->).
  destruct (process_multiselect_column_cached_eq df column_name wb Hb)
    as (cb & _ & _ & ->).
  split; [done|]. by eexists.
Qed.

Ltac same :=
  repeat first
    [ apply same_st | apply same_raise_if | apply same_mret
    | apply same_process_multiselect_column_cached
    | apply same_bind;
        [|first [ apply keeps_st | apply keeps_raise_if
                | apply keeps_process_multiselect_column_cached ]|intros ?]
    | match goal with
      | |- same_from_any_caches (match ?x with _ => _ end) => destruct x
      | |- same_from_any_caches (if ?x then _ else _) => destruct x
      | |- same_from_any_caches (let _ := _ in _) => cbv zeta
      end ].

Lemma same_show_home df : same_from_any_caches (show_home df).
Proof. unfold show_home. same. Qed.

Lemma same_show_language_usage df selected_country :
  same_from_any_caches (show_language_usage df selected_country).
Proof. unfold show_language_usage. same. Qed.

Lemma same_show_detailed_analysis topic df selected_country :
  same_from_any_caches (show_detailed_analysis topic df selected_country).
Proof. unfold show_detailed_analysis. same. Qed.

(** A call of [load_data] leaves its result stored for the path. *)
Lemma load_data_cached_stores read_csv filepath w :
  caches_ok (cached w) →
  ∃ evs r w1,
    load_data_cached read_csv filepath w = (Ok r, w1) ∧
    cache_find filepath (load_data_cache (cached w1)) = Some (evs, r) ∧
    shown w1 = shown w ++ evs ∧ caches_ok (cached w1).
Proof.
  intros Hok.
  pose proof (keeps_load_data_cached read_csv filepath w Hok) as Hok'.
  destruct (cache_find filepath (load_data_cache (cached w))) as [[evs r]|] eqn:Hfind.
  - rewrite (load_data_cached_hit read_csv _ _ _ _ Hfind) in Hok' |- *.
    by exists evs, r, (show evs w).
  - rewrite load_data_cached_miss in Hok' |- * by done.
    destruct (load_data_total read_csv filepath) as (evs & r & Hbody).
    rewrite Hbody in Hok' |- *. eexists evs, r, _. split; [reflexivity|].
    split; [|done]. cbn. by rewrite decide_True.
Qed.

(** Two runs that differ in the file system only, the second from the
    caches the first left. *)
Lemma rerun_after_load {A} (k : option DataFrame * list scalar → M A)
    read_csv read_csv' filepath c :
  (∀ r, keeps_stored (k r)) → (∀ r, keeps_caches_ok (k r)) →
  (∀ r, same_from_any_caches (k r)) → caches_ok c →
  let first := (load_data_cached read_csv filepath ≫= k) (start c) in
  let second :=
    (load_data_cached read_csv' filepath ≫= k) (start (cached (snd first))) in
  fst second = fst first ∧ shown (snd second) = shown (snd first).
Proof.
  intros Hstored Hkeeps Hsame Hok. cbv zeta. rewrite !M_bind_eq.
  destruct (load_data_cached_stores read_csv filepath (start c) Hok)
    as (evs & r & w1 & -> & Hfind & Hshown & Hok1).
  apply (proj1 (Hstored r w1)) in Hfind.
  pose proof (Hkeeps r w1 Hok1) as Hok2.
  rewrite (load_data_cached_hit read_csv' filepath
             (start (cached (snd (k r w1)))) evs r Hfind).
  destruct (Hsame r (show evs (start (cached (snd (k r w1))))) w1 Hok2 Hok1)
    as (Hr & evs' & Hsa & Hsb).
  split; [done|]. by rewrite Hsa, Hsb, Hshown.
Qed.

End Reruns.

(** X15: a second run with the same selections ends as the first did and
    shows the same page, whatever has become of the file in between: a
    removed, replaced or edited file changes nothing that is shown. *)
Theorem rerun_shows_the_same_page (S : Sorter) read_csv read_csv' ui c :
  caches_ok c →
  let first := main read_csv ui (start c) in
  let second := main read_csv' ui (start (cached (snd first))) in
  fst second = fst first ∧ shown (snd second) = shown (snd first).
Proof.
  intros Hok. unfold main. apply rerun_after_load; [| | |exact Hok].
  - intros [[df|] cs]; [|apply stored_st].
    repeat (apply stored_bind; [apply stored_st|intros ?]).
    repeat case_decide;
      auto using stored_show_home, stored_show_language_usage,
        stored_show_detailed_analysis, stored_mret.
  - intros [[df|] cs]; [|apply keeps_st].
    repeat (apply keeps_bind; [apply keeps_st|intros ?]).
    repeat case_decide;
      auto using keeps_show_home, keeps_show_language_usage,
        keeps_show_detailed_analysis, keeps_mret.
  - intros [[df|] cs]; [|apply same_st].
    repeat (apply same_bind; [apply same_st|apply keeps_st|intros ?]).
    repeat case_decide;
      auto using same_show_home, same_show_language_usage,
        same_show_detailed_analysis, same_mret.
Qed.

Lemma rerun_shows_the_same_page_witness :
  let ui := {| menu_choice := 1; country_choice := 0; topic_choice := 0 |} in
  let first := @main stable_sorter file_present ui (start no_caches) in
  let second := @main stable_sorter file_removed ui (start (cached (snd first))) in
  fst second = fst first ∧ shown (snd second) = shown (snd first).
Proof.
  apply (rerun_shows_the_same_page stable_sorter file_present file_removed
           {| menu_choice := 1; country_choice := 0; topic_choice := 0 |}
           no_caches no_caches_ok).
Defined.
